(** * AuraByShenoi API: the FastAPI backend ([fastapi-backend/main.py])

    A shallow embedding of the request handlers of [main.py] and of the
    parts of Python, pydantic, Motor and FastAPI they rely on, followed by
    the properties of the handlers.

    Conventions.
    - A Python [str] is a [string]; one [ascii] stands for one code point,
      so text is restricted to code points below 256.
    - A Python [int] is a [Z].
    - A [dict] (a MongoDB document, a query, the [data] of a response) is
      a [gmap string value].
    - A coroutine is a function of the world (database contents, the
      failures the driver is going to report, the clock) returning a
      result or a raised exception together with the new world. *)

From Stdlib Require Import ZArith Lia String Ascii List Bool.
From stdpp Require Import base option list gmap strings.

Local Open Scope string_scope.
Local Open Scope Z_scope.

(* Let [simpl] unfold [++] on a string that starts with a character. *)
#[local] Arguments String.append !s1 s2 : simpl nomatch.

(** ** Python strings *)

Module PyStr.

Definition code (c : ascii) : Z := Z.of_nat (nat_of_ascii c).

Definition chr (z : Z) : ascii := ascii_of_nat (Z.to_nat z).

(** [len(s)] *)
Definition len (s : string) : Z := Z.of_nat (String.length s).

(** [c.isspace()] on the code points below 256: the characters whose
    bidirectional class is WS, B or S or whose category is Zs. *)
Definition isspace (c : ascii) : bool :=
  let n := code c in
  ((9 <=? n) && (n <=? 13)) || ((28 <=? n) && (n <=? 32))
  || (n =? 133) || (n =? 160).

(** [s.lstrip()] *)
Fixpoint lstrip (s : string) : string :=
  match s with
  | EmptyString => EmptyString
  | String c s' => if isspace c then lstrip s' else s
  end.

(** [s.rstrip()] *)
Fixpoint rstrip (s : string) : string :=
  match s with
  | EmptyString => EmptyString
  | String c s' =>
      match rstrip s' with
      | EmptyString => if isspace c then EmptyString else String c EmptyString
      | r => String c r
      end
  end.

(** [s.strip()] *)
Definition strip (s : string) : string := rstrip (lstrip s).

(** [c.lower()] on the code points below 256: A-Z, and the Latin-1
    capitals U+00C0..U+00DE except the multiplication sign U+00D7. *)
Definition lower_char (c : ascii) : ascii :=
  let n := code c in
  if ((65 <=? n) && (n <=? 90))
     || ((192 <=? n) && (n <=? 222) && negb (n =? 215))
  then chr (n + 32) else c.

(** [s.lower()] *)
Fixpoint lower (s : string) : string :=
  match s with
  | EmptyString => EmptyString
  | String c s' => String (lower_char c) (lower s')
  end.

(** [bool(s)]: a string is true when it is not empty. *)
Definition truthy (s : string) : bool :=
  match s with EmptyString => false | _ => true end.

(** [c * n] for a one-character string [c]. *)
Fixpoint replicate_char (n : nat) (c : ascii) : string :=
  match n with
  | O => EmptyString
  | S n' => String c (replicate_char n' c)
  end.

(** The decimal digit [d], for [0 <= d <= 9]. *)
Definition digit_char (d : Z) : ascii := chr (48 + d).

Definition is_digit (c : ascii) : bool :=
  (48 <=? code c) && (code c <=? 57).

(** The digits of a non-negative [n], most significant first, pushed in
    front of [acc].  Each step removes one decimal digit; [fuel] bounds
    the number of steps. *)
Fixpoint digits_aux (fuel : nat) (n : Z) (acc : string) : string :=
  match fuel with
  | O => acc
  | S fuel' =>
      let acc' := String (digit_char (n mod 10)) acc in
      if n <? 10 then acc' else digits_aux fuel' (n / 10) acc'
  end.

(** A number below [2 ^ k] has at most [k] decimal digits, so the bit
    length of [n] is fuel enough (see [digits_aux_fuel]). *)
Definition digits (n : Z) : string :=
  digits_aux (S (Z.to_nat (Z.log2 n))) n EmptyString.

(** [str(n)] for an [int]. *)
Definition str_int (n : Z) : string :=
  if n <? 0 then String "-" (digits (- n)) else digits n.

(** [s.zfill(width)]: pad with zeros on the left, after a leading sign. *)
Definition zfill (width : Z) (s : string) : string :=
  if width <=? len s then s
  else
    let fill := replicate_char (Z.to_nat (width - len s)) "0" in
    match s with
    | String c s' =>
        if (Ascii.eqb c "+" || Ascii.eqb c "-")%bool
        then String c (fill ++ s')
        else fill ++ s
    | EmptyString => fill
    end.

(** The number a string of decimal digits denotes ([int(s)] on such a
    string). *)
Fixpoint digits_value (acc : Z) (s : string) : Z :=
  match s with
  | EmptyString => acc
  | String c s' => digits_value (10 * acc + (code c - 48)) s'
  end.

Definition all_digits (s : string) : bool :=
  forallb is_digit (list_ascii_of_string s).

(** [s[n:]] *)
Fixpoint drop (n : nat) (s : string) : string :=
  match n, s with
  | O, _ => s
  | S n', String _ s' => drop n' s'
  | S _, EmptyString => EmptyString
  end.

End PyStr.

(** ** Values, documents and exceptions *)

(** [datetime.datetime]: a naive date and time, held field by field. *)
Record datetime := {
  year : Z; month : Z; day : Z;
  hour : Z; minute : Z; second : Z; microsecond : Z
}.

(** [t.isoformat(sep)]: [YYYY-MM-DD], [sep], [HH:MM:SS], and the
    microseconds when they are not zero. *)
Definition isoformat_sep (sep : string) (t : datetime) : string :=
  let pad w n := PyStr.zfill w (PyStr.str_int n) in
  pad 4 (year t) ++ "-" ++ pad 2 (month t) ++ "-" ++ pad 2 (day t) ++ sep
  ++ pad 2 (hour t) ++ ":" ++ pad 2 (minute t) ++ ":" ++ pad 2 (second t)
  ++ (if microsecond t =? 0 then "" else "." ++ pad 6 (microsecond t)).

Definition isoformat (t : datetime) : string := isoformat_sep "T" t.

(** The values the fields of a document hold here.  An [ObjectId] is kept
    as its 24 hexadecimal digits. *)
Inductive value :=
| VNone
| VBool (b : bool)
| VInt (n : Z)
| VStr (s : string)
| VDatetime (t : datetime)
| VObjectId (hex : string).

#[global] Instance datetime_eq_dec : EqDecision datetime.
Proof. solve_decision. Defined.

#[global] Instance value_eq_dec : EqDecision value.
Proof. solve_decision. Defined.

(** A [dict] with string keys: MongoDB documents, queries and response
    data. *)
Abbreviation doc := (gmap string value).

(** A dict display [{k1: v1, ...}] with distinct keys. *)
Definition dict (kvs : list (string * value)) : doc := list_to_map kvs.

(** [str(v)] *)
Definition str_value (v : value) : string :=
  match v with
  | VNone => "None"
  | VBool b => if b then "True" else "False"
  | VInt n => PyStr.str_int n
  | VStr s => s
  | VDatetime t => isoformat_sep " " t
  | VObjectId hex => hex
  end.

(** Exceptions (subclasses of [Exception]).  [HTTPException] is
    FastAPI's; every other class is kept by name with its [str(e)]. *)
Inductive exn :=
| HTTPException (status_code : Z) (detail : string)
| PyException (cls : string) (msg : string).

(** [str(e)]; Starlette prints an [HTTPException] as [status: detail]. *)
Definition str_exn (e : exn) : string :=
  match e with
  | HTTPException c d => PyStr.str_int c ++ ": " ++ d
  | PyException _ m => m
  end.

(** ** The world: database, driver failures, clock *)

Inductive collection := Newsletters | Contacts | Paintings.

(** [newsletters], [contacts], [paintings]: the collections of
    [db = client.artist_portfolio], in natural order.
    [faults]: what the driver is going to answer to the next awaited
    operations, [Some e] for "raises [e]"; an exhausted list means no
    further failure.
    [clock], [clock_reads]: the successive readings of the system clock.
    [oid_gen], [oid_count]: the successive [ObjectId]s the driver
    generates. *)
Record world := {
  newsletters : list doc;
  contacts : list doc;
  paintings : list doc;
  faults : list (option exn);
  clock : nat -> datetime;
  clock_reads : nat;
  oid_gen : nat -> string;
  oid_count : nat
}.

Definition get_coll (c : collection) (w : world) : list doc :=
  match c with
  | Newsletters => newsletters w
  | Contacts => contacts w
  | Paintings => paintings w
  end.

Definition set_coll (c : collection) (l : list doc) (w : world) : world :=
  {| newsletters := match c with Newsletters => l | _ => newsletters w end;
     contacts := match c with Contacts => l | _ => contacts w end;
     paintings := match c with Paintings => l | _ => paintings w end;
     faults := faults w;
     clock := clock w; clock_reads := clock_reads w;
     oid_gen := oid_gen w; oid_count := oid_count w |}.

Definition set_faults (fs : list (option exn)) (w : world) : world :=
  {| newsletters := newsletters w; contacts := contacts w;
     paintings := paintings w;
     faults := fs;
     clock := clock w; clock_reads := clock_reads w;
     oid_gen := oid_gen w; oid_count := oid_count w |}.

Definition tick (w : world) : world :=
  {| newsletters := newsletters w; contacts := contacts w;
     paintings := paintings w;
     faults := faults w;
     clock := clock w; clock_reads := S (clock_reads w);
     oid_gen := oid_gen w; oid_count := oid_count w |}.

Definition next_oid (w : world) : world :=
  {| newsletters := newsletters w; contacts := contacts w;
     paintings := paintings w;
     faults := faults w;
     clock := clock w; clock_reads := clock_reads w;
     oid_gen := oid_gen w; oid_count := S (oid_count w) |}.

(** ** Coroutines: state and exceptions *)

Inductive result (A : Type) :=
| Ok (a : A)
| Raise (e : exn).
Arguments Ok {A} a.
Arguments Raise {A} e.

Definition M (A : Type) : Type := world -> result A * world.

Definition ret {A} (a : A) : M A := fun w => (Ok a, w).

Definition raise {A} (e : exn) : M A := fun w => (Raise e, w).

Definition bind {A B} (m : M A) (k : A -> M B) : M B :=
  fun w =>
    match m w with
    | (Ok a, w') => k a w'
    | (Raise e, w') => (Raise e, w')
    end.

(** [try: m  except ...: handler] *)
Definition try_except {A} (m : M A) (handler : exn -> M A) : M A :=
  fun w =>
    match m w with
    | (Ok a, w') => (Ok a, w')
    | (Raise e, w') => handler e w'
    end.

Declare Scope py_scope.
Delimit Scope py_scope with py.
Notation "x <- m ;; k" := (bind m (fun x => k))
  (at level 100, m at next level, right associativity) : py_scope.
Notation "m ;;; k" := (bind m (fun _ => k))
  (at level 100, right associativity) : py_scope.
Local Open Scope py_scope.

(** [datetime.utcnow()] *)
Definition utcnow : M datetime :=
  fun w => (Ok (clock w (clock_reads w)), tick w).

(** The world once the driver has answered one more operation. *)
Definition pop_fault (w : world) : world := set_faults (tail (faults w)) w.

(** What the driver raises at the next operation, if anything. *)
Definition next_fault (w : world) : option exn :=
  match faults w with
  | Some e :: _ => Some e
  | _ => None
  end.

(** An awaited driver operation: it raises what the driver reports, or
    runs [op] on the database. *)
Definition driver_io {A} (op : world -> A * world) : M A :=
  fun w =>
    match next_fault w with
    | Some e => (Raise e, pop_fault w)
    | None => let (a, w') := op (pop_fault w) in (Ok a, w')
    end.

(** ** The Motor driver *)

(** One field of an equality query: the document holds that value under
    that key ([None] also matches a missing key). *)
Definition field_matches (d : doc) (k : string) (v : value) : Prop :=
  match d !! k with
  | Some x => x = v
  | None => v = VNone
  end.

#[global] Instance field_matches_dec d k v : Decision (field_matches d k v).
Proof. unfold field_matches. destruct (d !! k); apply _. Defined.

(** A document matches a query when it matches each of its fields; every
    document matches [{}]. *)
Definition matches (query : doc) (d : doc) : Prop :=
  map_Forall (field_matches d) query.

#[global] Instance matches_dec query d : Decision (matches query d).
Proof. unfold matches. apply _. Defined.

(** [bool(d)] for a dict. *)
Definition dict_truthy (d : doc) : bool := bool_decide (d ≠ ∅).

(** [await client.admin.command('ping')] *)
Definition ping : M unit := driver_io (fun w => (tt, w)).

(** [await coll.find_one(query)] *)
Definition find_one (c : collection) (query : doc) : M (option doc) :=
  driver_io (fun w => (head (filter (matches query) (get_coll c w)), w)).

(** The document as the driver sends it: under a new [ObjectId] when it
    has no [_id]. *)
Definition with_id (d : doc) (w : world) : doc * world :=
  match d !! "_id" with
  | Some _ => (d, w)
  | None => (<["_id" := VObjectId (oid_gen w (oid_count w))]> d, next_oid w)
  end.

(** [await coll.insert_one(d)]: the document is stored at the end of the
    collection. *)
Definition insert_one (c : collection) (d : doc) : M unit :=
  driver_io (fun w =>
    let (d', w') := with_id d w in
    (tt, set_coll c (get_coll c w' ++ [d']) w')).

(** [await coll.count_documents(query)] *)
Definition count_documents (c : collection) (query : doc) : M Z :=
  driver_io (fun w =>
    (Z.of_nat (length (filter (matches query) (get_coll c w))), w)).

(** A cursor: [coll.find(query)] does no input or output, and
    [cursor.limit(n)] records the limit ([0] means none, a negative [n]
    means at most [-n] documents). *)
Record cursor := {
  cur_coll : collection;
  cur_query : doc;
  cur_limit : Z
}.

Definition find (c : collection) (query : doc) : cursor :=
  {| cur_coll := c; cur_query := query; cur_limit := 0 |}.

Definition cursor_limit (n : Z) (cur : cursor) : cursor :=
  {| cur_coll := cur_coll cur; cur_query := cur_query cur; cur_limit := n |}.

Definition cursor_docs (cur : cursor) (w : world) : list doc :=
  let ds := filter (matches (cur_query cur)) (get_coll (cur_coll cur) w) in
  if cur_limit cur =? 0 then ds else take (Z.to_nat (Z.abs (cur_limit cur))) ds.

(** [await cursor.to_list(length=n)]: Motor refuses a negative length
    before any input or output. *)
Definition to_list (n : Z) (cur : cursor) : M (list doc) :=
  if n <? 0 then raise (PyException "ValueError" "length must be non-negative")
  else driver_io (fun w => (take (Z.to_nat n) (cursor_docs cur w), w)).

(** ** The pydantic models *)

Module NewsletterSubscription.
Record t := { email : string; source : string }.

(** The model built from a request body: [source] is optional. *)
Definition make (email : string) (source : option string) : t :=
  {| email := email; source := default "homepage" source |}.
End NewsletterSubscription.

Module ContactSubmission.
Record t := {
  name : string;
  email : string;
  phone : option string;
  message : string;
  artworkReference : option string
}.

(** [Field(..., min_length=lo, max_length=hi)] on a [str]. *)
Definition length_within (lo hi : Z) (s : string) : bool :=
  (lo <=? PyStr.len s) && (PyStr.len s <=? hi).

Definition name_valid (s : string) : bool := length_within 2 100 s.

Definition message_valid (s : string) : bool := length_within 10 1000 s.
End ContactSubmission.

Module NewsletterResponse.
Record t := { success : bool; message : string; data : option doc }.
End NewsletterResponse.

Module ContactResponse.
Record t := { success : bool; message : string; data : option doc }.
End ContactResponse.

(** The dict [{"success": ..., "data": [...]}] of [get_paintings]. *)
Module PaintingsResult.
Record t := { success : bool; data : list doc }.
End PaintingsResult.

(** ** Routes *)

(** [GET /health] *)
Definition health_check : M doc :=
  try_except
    (ping;;;
     now <- utcnow;;
     ret (dict [("status", VStr "healthy");
                ("database", VStr "connected");
                ("timestamp", VStr (isoformat now))]))
    (fun e =>
     now <- utcnow;;
     ret (dict [("status", VStr "unhealthy");
                ("database", VStr "disconnected");
                ("error", VStr (str_exn e));
                ("timestamp", VStr (isoformat now))])).

(** The body of the [try] of [subscribe_newsletter]. *)
Definition subscribe_newsletter_body (subscription : NewsletterSubscription.t)
  : M NewsletterResponse.t :=
  let email := PyStr.lower (NewsletterSubscription.email subscription) in
  existing <- find_one Newsletters (dict [("email", VStr email)]);;
  if from_option dict_truthy false existing
  then raise (HTTPException 409
                "This email is already subscribed to our newsletter")
  else
    subscribedAt <- utcnow;;
    createdAt <- utcnow;;
    updatedAt <- utcnow;;
    let newsletter_doc :=
      dict [("email", VStr email);
            ("source", VStr (NewsletterSubscription.source subscription));
            ("status", VStr "active");
            ("subscribedAt", VDatetime subscribedAt);
            ("createdAt", VDatetime createdAt);
            ("updatedAt", VDatetime updatedAt)] in
    insert_one Newsletters newsletter_doc;;;
    ret {| NewsletterResponse.success := true;
           NewsletterResponse.message := "Successfully subscribed to newsletter!";
           NewsletterResponse.data :=
             Some (dict [("email", VStr email);
                         ("subscribedAt", VStr (isoformat subscribedAt))]) |}.

(** [POST /api/newsletter/subscribe]: an [HTTPException] is raised again,
    any other exception becomes a 500. *)
Definition subscribe_newsletter (subscription : NewsletterSubscription.t)
  : M NewsletterResponse.t :=
  try_except (subscribe_newsletter_body subscription)
    (fun e =>
       match e with
       | HTTPException _ _ => raise e
       | _ => raise (HTTPException 500
                       ("Failed to subscribe to newsletter: " ++ str_exn e))
       end).

(** [f"CNT{str(count + 1).zfill(6)}"] *)
Definition contact_number_of (count : Z) : string :=
  "CNT" ++ PyStr.zfill 6 (PyStr.str_int (count + 1)).

(** [x.strip() if x else None] on an optional string. *)
Definition strip_if_truthy (o : option string) : value :=
  match o with
  | Some s => if PyStr.truthy s then VStr (PyStr.strip s) else VNone
  | None => VNone
  end.

Definition value_of_option (o : option string) : value :=
  match o with Some s => VStr s | None => VNone end.

(** The body of the [try] of [submit_contact]. *)
Definition submit_contact_body (contact : ContactSubmission.t)
  : M ContactResponse.t :=
  count <- count_documents Contacts ∅;;
  let contact_number := contact_number_of count in
  submittedAt <- utcnow;;
  createdAt <- utcnow;;
  updatedAt <- utcnow;;
  let contact_doc :=
    dict [("contactNumber", VStr contact_number);
          ("name", VStr (PyStr.strip (ContactSubmission.name contact)));
          ("email", VStr (PyStr.lower (ContactSubmission.email contact)));
          ("phone", strip_if_truthy (ContactSubmission.phone contact));
          ("message", VStr (PyStr.strip (ContactSubmission.message contact)));
          ("artworkReference",
            value_of_option (ContactSubmission.artworkReference contact));
          ("status", VStr "new");
          ("submittedAt", VDatetime submittedAt);
          ("createdAt", VDatetime createdAt);
          ("updatedAt", VDatetime updatedAt)] in
  insert_one Contacts contact_doc;;;
  ret {| ContactResponse.success := true;
         ContactResponse.message :=
           "Thank you for contacting us! We'll get back to you soon.";
         ContactResponse.data :=
           Some (dict [("contactNumber", VStr contact_number);
                       ("submittedAt", VStr (isoformat submittedAt))]) |}.

(** [POST /api/contact]: every exception becomes a 500. *)
Definition submit_contact (contact : ContactSubmission.t)
  : M ContactResponse.t :=
  try_except (submit_contact_body contact)
    (fun e =>
       raise (HTTPException 500
                ("Failed to submit contact form: " ++ str_exn e))).

(** [bool(limit)] for an [Optional[int]]. *)
Definition limit_truthy (limit : option Z) : bool :=
  match limit with
  | Some n => negb (n =? 0)
  | None => false
  end.

(** [limit or 100] *)
Definition limit_or_100 (limit : option Z) : Z :=
  match limit with
  | Some n => if n =? 0 then 100 else n
  | None => 100
  end.

(** [for painting in paintings: painting["_id"] = str(painting["_id"])];
    a missing key raises [KeyError]. *)
Fixpoint stringify_ids (ps : list doc) : M (list doc) :=
  match ps with
  | [] => ret []
  | painting :: rest =>
      match painting !! "_id" with
      | Some v =>
          rest' <- stringify_ids rest;;
          ret (<["_id" := VStr (str_value v)]> painting :: rest')
      | None => raise (PyException "KeyError" "'_id'")
      end
  end.

(** The [query] dict of [get_paintings]. *)
Definition featured_query (featured : option bool) : doc :=
  match featured with
  | Some b => <["featured" := VBool b]> ∅
  | None => ∅
  end.

(** The body of the [try] of [get_paintings]. *)
Definition get_paintings_body (featured : option bool) (limit : option Z)
  : M PaintingsResult.t :=
  let query := featured_query featured in
  let cursor0 := find Paintings query in
  let cursor1 :=
    if limit_truthy limit
    then cursor_limit (default 0 limit) cursor0
    else cursor0 in
  paintings <- to_list (limit_or_100 limit) cursor1;;
  paintings' <- stringify_ids paintings;;
  ret {| PaintingsResult.success := true;
         PaintingsResult.data := paintings' |}.

(** [GET /api/paintings] *)
Definition get_paintings (featured : option bool) (limit : option Z)
  : M PaintingsResult.t :=
  try_except (get_paintings_body featured limit)
    (fun e =>
       raise (HTTPException 500
                ("Failed to fetch paintings: " ++ str_exn e))).

(** ** The transport layer *)

(** The status FastAPI answers with: 200 when the handler returns, the
    status of an [HTTPException], 500 for any other exception. *)
Definition http_status {A} (r : result A) : Z :=
  match r with
  | Ok _ => 200
  | Raise (HTTPException c _) => c
  | Raise (PyException _ _) => 500
  end.

(** Requests served one after the other. *)
Fixpoint serve_all {A B} (handler : A -> M B) (reqs : list A) (w : world)
  : list (result B) * world :=
  match reqs with
  | [] => ([], w)
  | r :: rest =>
      let (x, w') := handler r w in
      let (xs, w'') := serve_all handler rest w' in
      (x :: xs, w'')
  end.

(** ** Vocabulary of the statements *)

(** The driver reports no failure from now on. *)
Definition storage_up (w : world) : Prop :=
  Forall (fun f => f = None) (faults w).

#[global] Instance storage_up_dec w : Decision (storage_up w).
Proof. unfold storage_up. apply _. Defined.

(** Some stored subscription holds exactly the lower-cased [email]. *)
Definition subscribed (email : string) (w : world) : Prop :=
  Exists (fun d : doc => d !! "email" = Some (VStr (PyStr.lower email)))
         (newsletters w).

#[global] Instance subscribed_dec email w : Decision (subscribed email w).
Proof. unfold subscribed. apply _. Defined.

(** The regular expression [CNT\d{6}], matched against a whole string. *)
Definition is_contact_number (s : string) : bool :=
  match s with
  | String "C" (String "N" (String "T" ds)) =>
      (String.length ds =? 6)%nat && PyStr.all_digits ds
  | _ => false
  end.

(** [data["contactNumber"]] of the response of [submit_contact]. *)
Definition contact_number (r : result ContactResponse.t) : option string :=
  match r with
  | Ok resp =>
      match ContactResponse.data resp with
      | Some d =>
          match d !! "contactNumber" with
          | Some (VStr s) => Some s
          | _ => None
          end
      | None => None
      end
  | Raise _ => None
  end.

(** The number after the [CNT] prefix. *)
Definition suffix_value (s : string) : Z :=
  PyStr.digits_value 0 (PyStr.drop 3 s).

Definition contact_suffix (r : result ContactResponse.t) : option Z :=
  suffix_value <$> contact_number r.

Definition is_Ok {A} (r : result A) : Prop :=
  match r with Ok _ => True | Raise _ => False end.

(** [sent] is the stored painting [p] with its [_id] turned into text. *)
Definition id_stringified (sent p : doc) : Prop :=
  exists v, p !! "_id" = Some v /\ sent = <["_id" := VStr (str_value v)]> p.

(** ** Sample data *)

Module Sample.

Definition t0 : datetime :=
  {| year := 2024; month := 3; day := 7;
     hour := 9; minute := 5; second := 0; microsecond := 12 |}.

Definition painting (hex : string) (featured : bool) : doc :=
  dict [("_id", VObjectId hex); ("title", VStr "Dusk");
        ("featured", VBool featured)].

(** An empty database but for three paintings; the driver never fails. *)
Definition w0 : world :=
  {| newsletters := []; contacts := [];
     paintings := [painting "65e9a1" true; painting "65e9a2" false;
                   painting "65e9a3" true];
     faults := [];
     clock := fun _ => t0; clock_reads := 0;
     oid_gen := fun n => PyStr.zfill 24 (PyStr.str_int (Z.of_nat n));
     oid_count := 0 |}.

(** The same with the driver failing at the next operation. *)
Definition w_down : world :=
  set_faults [Some (PyException "ServerSelectionTimeoutError"
                                "localhost:27017: connection refused")] w0.

(** The same with the driver failing at the second operation. *)
Definition w_down2 : world :=
  set_faults [None; Some (PyException "AutoReconnect" "connection closed")] w0.

Definition contact (name : string) : ContactSubmission.t :=
  {| ContactSubmission.name := name;
     ContactSubmission.email := "Asha@Example.com";
     ContactSubmission.phone := Some " 555 0100 ";
     ContactSubmission.message := "I would like a print of Dusk.";
     ContactSubmission.artworkReference := None |}.

Definition subscription : NewsletterSubscription.t :=
  NewsletterSubscription.make "Asha@Example.com" None.

End Sample.

(** ** The remaining route and more vocabulary *)

(** [GET /] *)
Definition root : M doc :=
  ret (dict [("message", VStr "AuraByShenoi API");
             ("status", VStr "running")]).

(** The three collections are the same in both worlds. *)
Definition same_database (w w' : world) : Prop :=
  newsletters w' = newsletters w
  /\ contacts w' = contacts w
  /\ paintings w' = paintings w.

(** The [email] fields of the stored subscriptions, in stored order. *)
Definition stored_emails (w : world) : list value :=
  omap (fun d : doc => d !! "email") (newsletters w).

(** A string of white space only ([s.isspace()], or [s] empty). *)
Definition all_space (s : string) : bool :=
  forallb PyStr.isspace (list_ascii_of_string s).

(** The documents [get_paintings] asks the driver for. *)
Definition fetched_paintings (featured : option bool) (limit : option Z)
  (w : world) : list doc :=
  take (Z.to_nat (limit_or_100 limit))
       (filter (matches (featured_query featured)) (paintings w)).

(** What the [except] clauses of [subscribe_newsletter] make of an
    exception of the body. *)
Definition subscribe_newsletter_error (e : exn) : exn :=
  match e with
  | HTTPException _ _ => e
  | PyException _ _ =>
      HTTPException 500 ("Failed to subscribe to newsletter: " ++ str_exn e)
  end.

(** The dict [contact_doc] of [submit_contact]. *)
Definition contact_document (contact : ContactSubmission.t)
  (contact_number : string) (submittedAt createdAt updatedAt : datetime)
  : doc :=
  dict [("contactNumber", VStr contact_number);
        ("name", VStr (PyStr.strip (ContactSubmission.name contact)));
        ("email", VStr (PyStr.lower (ContactSubmission.email contact)));
        ("phone", strip_if_truthy (ContactSubmission.phone contact));
        ("message", VStr (PyStr.strip (ContactSubmission.message contact)));
        ("artworkReference",
          value_of_option (ContactSubmission.artworkReference contact));
        ("status", VStr "new");
        ("submittedAt", VDatetime submittedAt);
        ("createdAt", VDatetime createdAt);
        ("updatedAt", VDatetime updatedAt)].

(** The dict [newsletter_doc] of [subscribe_newsletter]. *)
Definition newsletter_document (subscription : NewsletterSubscription.t)
  (subscribedAt createdAt updatedAt : datetime) : doc :=
  dict [("email",
          VStr (PyStr.lower (NewsletterSubscription.email subscription)));
        ("source", VStr (NewsletterSubscription.source subscription));
        ("status", VStr "active");
        ("subscribedAt", VDatetime subscribedAt);
        ("createdAt", VDatetime createdAt);
        ("updatedAt", VDatetime updatedAt)].

Module Sample2.

(** A painting stored without [_id]. *)
Definition no_id : doc := dict [("title", VStr "Dawn"); ("featured", VBool true)].

(** A painting whose [_id] is text already. *)
Definition text_id : doc :=
  dict [("_id", VStr "dusk-01"); ("featured", VBool false)].

Definition w_no_id : world :=
  set_coll Paintings [Sample.painting "65e9a1" true; no_id] Sample.w0.

Definition w_text_id : world :=
  set_coll Paintings [text_id; Sample.painting "65e9a2" true] Sample.w0.

(** The driver raising an [HTTPException] of its own at the next
    operation. *)
Definition w_teapot : world :=
  set_faults [Some (HTTPException 418 "teapot")] Sample.w0.

Definition blank_contact : ContactSubmission.t :=
  {| ContactSubmission.name := "   ";
     ContactSubmission.email := "Asha@Example.com";
     ContactSubmission.phone := Some "  ";
     ContactSubmission.message := "            ";
     ContactSubmission.artworkReference := Some "Dusk" |}.

End Sample2.

(** * Properties *)

Example str_int_ex : PyStr.str_int 1234567 = "1234567" /\ PyStr.str_int (-40) = "-40" /\ PyStr.str_int 0 = "0".
Proof. repeat split; reflexivity. Qed.

Example zfill_ex : PyStr.zfill 6 "42" = "000042" /\ PyStr.zfill 6 "-42" = "-00042" /\ PyStr.zfill 6 "1234567" = "1234567".
Proof. repeat split; reflexivity. Qed.

Example strip_ex : PyStr.strip "  a b  " = "a b" /\ PyStr.lower "Ab@X.Com" = "ab@x.com".
Proof. repeat split; reflexivity. Qed.

(** ** Strings and decimal numerals *)

Module PyStrFacts.
Import PyStr.

Lemma append_assoc (a b c : string) : (a ++ b) ++ c = a ++ (b ++ c).
Proof. induction a as [|x a IH]; simpl; [reflexivity | now rewrite IH]. Qed.

Lemma length_append (a b : string) :
  String.length (a ++ b) = (String.length a + String.length b)%nat.
Proof. induction a as [|x a IH]; simpl; [reflexivity | now rewrite IH]. Qed.

Lemma code_chr z : 0 <= z < 256 -> code (chr z) = z.
Proof.
  intros Hz. unfold code, chr.
  rewrite nat_ascii_embedding by lia. lia.
Qed.

Lemma code_digit_char d : 0 <= d <= 9 -> code (digit_char d) = 48 + d.
Proof. intros Hd. unfold digit_char. apply code_chr. lia. Qed.

Lemma is_digit_digit_char d : 0 <= d <= 9 -> is_digit (digit_char d) = true.
Proof.
  intros Hd. unfold is_digit. rewrite code_digit_char by lia.
  apply andb_true_intro; split; apply Z.leb_le; lia.
Qed.

Lemma mod10_range n : 0 <= n mod 10 <= 9.
Proof. pose proof (Z.mod_pos_bound n 10). lia. Qed.

(** The accumulator of [digits_aux] is only ever extended in front. *)
Lemma digits_aux_acc fuel n acc :
  digits_aux fuel n acc = digits_aux fuel n EmptyString ++ acc.
Proof.
  revert n acc. induction fuel as [|fuel IH]; intros n acc; simpl.
  - reflexivity.
  - destruct (n <? 10); [reflexivity|].
    rewrite (IH _ (String _ acc)), (IH _ (String _ EmptyString)).
    now rewrite append_assoc.
Qed.

Lemma digits_aux_step fuel n :
  digits_aux (S fuel) n EmptyString =
  if n <? 10 then String (digit_char (n mod 10)) EmptyString
  else digits_aux fuel (n / 10) EmptyString
       ++ String (digit_char (n mod 10)) EmptyString.
Proof. simpl. destruct (n <? 10); [reflexivity | apply digits_aux_acc]. Qed.

Lemma digits_value_app acc a b :
  digits_value acc (a ++ b) = digits_value (digits_value acc a) b.
Proof. revert acc. induction a as [|x a IH]; intros acc; simpl; auto. Qed.

(** With fuel for the bit length of [n], [digits_aux] writes [n] out in
    full: reading the digits back gives [n]. *)
Lemma digits_aux_fuel fuel n :
  0 <= n < 2 ^ Z.of_nat fuel ->
  digits_value 0 (digits_aux fuel n EmptyString) = n.
Proof.
  revert n. induction fuel as [|fuel IH]; intros n Hn.
  - simpl in *. lia.
  - rewrite digits_aux_step.
    rewrite Nat2Z.inj_succ, Z.pow_succ_r in Hn by lia.
    destruct (Z.ltb_spec n 10) as [Hlt|Hge].
    + simpl. rewrite code_digit_char by apply mod10_range.
      rewrite Z.mod_small by lia. lia.
    + rewrite digits_value_app, IH.
      * simpl. rewrite code_digit_char by apply mod10_range.
        pose proof (Z.div_mod n 10). lia.
      * split; [apply Z.div_pos; lia|].
        apply Z.div_lt_upper_bound; lia.
Qed.

Lemma digits_value_digits n : 0 <= n -> digits_value 0 (digits n) = n.
Proof.
  intros Hn. unfold digits. apply digits_aux_fuel.
  destruct (Z.eq_dec n 0) as [->|Hne]; [simpl; lia|].
  split; [lia|].
  rewrite Nat2Z.inj_succ, Z2Nat.id by apply Z.log2_nonneg.
  apply Z.log2_spec. lia.
Qed.

Lemma all_digits_app a b :
  all_digits (a ++ b) = all_digits a && all_digits b.
Proof.
  unfold all_digits. induction a as [|x a IH]; simpl; [reflexivity|].
  rewrite IH. now rewrite andb_assoc.
Qed.

Lemma all_digits_digits_aux fuel n :
  all_digits (digits_aux fuel n EmptyString) = true.
Proof.
  revert n. induction fuel as [|fuel IH]; intros n; [reflexivity|].
  rewrite digits_aux_step.
  assert (Hd : all_digits (String (digit_char (n mod 10)) EmptyString) = true).
  { unfold all_digits. simpl.
    now rewrite is_digit_digit_char by apply mod10_range. }
  destruct (n <? 10); [exact Hd|].
  rewrite all_digits_app, IH, Hd. reflexivity.
Qed.

(** A number below [10 ^ k] is written with at most [k] digits. *)
Lemma length_digits_aux fuel (k : nat) n :
  (1 <= k)%nat -> 0 <= n < 10 ^ Z.of_nat k ->
  (1 <= String.length (digits_aux (S fuel) n EmptyString) <= k)%nat.
Proof.
  revert k n. induction fuel as [|fuel IH]; intros k n Hk Hn.
  - simpl. destruct (n <? 10); simpl; lia.
  - rewrite digits_aux_step.
    destruct (Z.ltb_spec n 10) as [Hlt|Hge]; [simpl; lia|].
    rewrite length_append.
    change (String.length (String (digit_char (n mod 10)) EmptyString))
      with 1%nat.
    destruct k as [|[|k]]; [lia| simpl in Hn; lia |].
    assert (Hq : 0 <= n / 10 < 10 ^ Z.of_nat (S k)).
    { rewrite (Nat2Z.inj_succ (S k)), Z.pow_succ_r in Hn by lia.
      split; [apply Z.div_pos; lia|].
      apply Z.div_lt_upper_bound; lia. }
    specialize (IH (S k) (n / 10) ltac:(lia) Hq). lia.
Qed.

Lemma digit_not_sign c :
  is_digit c = true -> (Ascii.eqb c "+" || Ascii.eqb c "-")%bool = false.
Proof.
  destruct c as [[] [] [] [] [] [] [] []]; vm_compute; congruence.
Qed.

Lemma all_digits_zeros k : all_digits (replicate_char k "0") = true.
Proof. induction k as [|k IH]; [reflexivity | exact IH]. Qed.

Lemma length_replicate_char k c : String.length (replicate_char k c) = k.
Proof. induction k as [|k IH]; simpl; [reflexivity | now rewrite IH]. Qed.

Lemma digits_value_zeros k s :
  digits_value 0 (replicate_char k "0" ++ s) = digits_value 0 s.
Proof. induction k as [|k IH]; simpl; [reflexivity | exact IH]. Qed.

(** [zfill] on a non-empty string of digits only adds zeros in front. *)
Lemma zfill_digits width s :
  s <> EmptyString -> all_digits s = true ->
  zfill width s =
  replicate_char (Z.to_nat (width - len s)) "0" ++ s.
Proof.
  intros Hne Hs. unfold zfill.
  destruct (Z.leb_spec width (len s)) as [Hle|Hgt].
  - replace (Z.to_nat (width - len s)) with O by lia. reflexivity.
  - destruct s as [|c s]; [congruence|].
    unfold all_digits in Hs. simpl in Hs.
    apply andb_prop in Hs as [Hc _].
    now rewrite (digit_not_sign c Hc).
Qed.

Lemma digits_nonempty n : digits n <> EmptyString.
Proof.
  unfold digits. simpl. destruct (n <? 10); [discriminate|].
  rewrite digits_aux_acc. intros H.
  apply (f_equal String.length) in H. rewrite length_append in H.
  simpl in H. lia.
Qed.

Lemma str_int_nonneg n : 0 <= n -> str_int n = digits n.
Proof.
  intros Hn. unfold str_int.
  destruct (Z.ltb_spec n 0); [lia | reflexivity].
Qed.

(** Reading back a zero-padded numeral gives the number. *)
Lemma digits_value_zfill width n :
  0 <= n -> digits_value 0 (zfill width (str_int n)) = n.
Proof.
  intros Hn. rewrite str_int_nonneg by assumption.
  rewrite zfill_digits.
  - rewrite digits_value_zeros. now apply digits_value_digits.
  - apply digits_nonempty.
  - apply all_digits_digits_aux.
Qed.

(** A number below one million, padded to width 6, is six digits. *)
Lemma zfill6_six_digits n :
  0 <= n < 1000000 ->
  String.length (zfill 6 (str_int n)) = 6%nat
  /\ all_digits (zfill 6 (str_int n)) = true.
Proof.
  intros Hn. rewrite str_int_nonneg by lia.
  rewrite zfill_digits
    by (apply digits_nonempty || apply all_digits_digits_aux).
  pose proof (length_digits_aux (Z.to_nat (Z.log2 n)) 6 n ltac:(lia)
                ltac:(simpl; lia)) as Hlen.
  fold (digits n) in Hlen.
  split.
  - rewrite length_append, length_replicate_char. unfold len. lia.
  - rewrite all_digits_app, all_digits_zeros. apply all_digits_digits_aux.
Qed.

(** *** Trimming and lower-casing *)






Lemma lstrip_all_space s :
  forallb isspace (list_ascii_of_string s) = true -> lstrip s = EmptyString.
Proof.
  induction s as [|c s IH]; simpl; [reflexivity|].
  intros H. apply andb_prop in H as [-> Hs]. now apply IH.
Qed.

Lemma strip_all_space s :
  forallb isspace (list_ascii_of_string s) = true -> strip s = EmptyString.
Proof. intros H. unfold strip. now rewrite lstrip_all_space. Qed.



(** *** Numerals and their values *)

(** A string of [k] digits denotes a number below [10 ^ k]. *)
Lemma digits_value_bound s acc :
  all_digits s = true -> 0 <= acc ->
  acc * 10 ^ Z.of_nat (String.length s)
  <= digits_value acc s
  < (acc + 1) * 10 ^ Z.of_nat (String.length s).
Proof.
  revert acc. induction s as [|c s IH]; intros acc Hs Hacc.
  - simpl. lia.
  - unfold all_digits in Hs. simpl in Hs. apply andb_prop in Hs as [Hc Hs].
    unfold is_digit in Hc. apply andb_prop in Hc as [Hlo Hhi].
    apply Z.leb_le in Hlo, Hhi.
    specialize (IH (10 * acc + (code c - 48)) Hs ltac:(lia)).
    cbn [digits_value String.length].
    rewrite Nat2Z.inj_succ, Z.pow_succ_r by lia.
    assert (0 < 10 ^ Z.of_nat (String.length s))
      by (apply Z.pow_pos_nonneg; lia).
    nia.
Qed.

End PyStrFacts.

(** ** The driver *)

Module DriverFacts.

Lemma storage_up_next w : storage_up w -> next_fault w = None.
Proof.
  unfold storage_up, next_fault. intros H.
  destruct (faults w) as [|[e|] fs]; [reflexivity | | reflexivity].
  inversion H; discriminate.
Qed.

Lemma storage_up_pop w : storage_up w -> storage_up (pop_fault w).
Proof.
  unfold storage_up, pop_fault. simpl. intros H.
  destruct (faults w); [constructor | now inversion H].
Qed.

Lemma storage_up_tick w : storage_up w -> storage_up (tick w).
Proof. exact (fun H => H). Qed.

Lemma storage_up_set_coll c l w : storage_up w -> storage_up (set_coll c l w).
Proof. exact (fun H => H). Qed.

Lemma storage_up_next_oid w : storage_up w -> storage_up (next_oid w).
Proof. exact (fun H => H). Qed.

(** Every document matches the empty query. *)
Lemma filter_matches_empty (l : list doc) : filter (matches ∅) l = l.
Proof.
  induction l as [|d l IH]; [reflexivity|].
  rewrite filter_cons_True by apply map_Forall_empty. now rewrite IH.
Qed.

(** A query on one field that is not [None] asks for that very value. *)
Lemma matches_singleton k v (d : doc) :
  v <> VNone -> matches (dict [(k, v)]) d <-> d !! k = Some v.
Proof.
  intros Hv. unfold matches, dict. simpl.
  rewrite map_Forall_insert by apply lookup_empty.
  unfold field_matches. split.
  - intros [H _]. destruct (d !! k); congruence.
  - intros ->. split; [reflexivity | apply map_Forall_empty].
Qed.

Lemma matches_featured b (d : doc) :
  matches (featured_query (Some b)) d <-> d !! "featured" = Some (VBool b).
Proof. apply (matches_singleton "featured" (VBool b)). discriminate. Qed.

Lemma head_filter_None {A} (P : A -> Prop) `{!forall x, Decision (P x)} l :
  head (filter P l) = None <-> ~ Exists P l.
Proof.
  induction l as [|x l IH].
  - split; [intros _ Hex; inversion Hex | reflexivity].
  - rewrite filter_cons. destruct (decide (P x)) as [Hx|Hx]; simpl.
    + split; [discriminate | intros Hex; destruct Hex; now left].
    + rewrite IH. rewrite Exists_cons. tauto.
Qed.

Lemma head_filter_Some {A} (P : A -> Prop) `{!forall x, Decision (P x)} l x :
  head (filter P l) = Some x -> P x /\ x ∈ l.
Proof.
  intros Hhd. apply (list_elem_of_filter P l x).
  destruct (filter P l) as [|y l']; [discriminate|].
  simpl in Hhd. injection Hhd as ->. left.
Qed.

(** [stringify_ids] does not touch the world, and on success every
    document it returns is its input with the identifier as text. *)
Lemma stringify_ids_spec ps w :
  snd (stringify_ids ps w) = w
  /\ forall ps', fst (stringify_ids ps w) = Ok ps' ->
                 Forall2 id_stringified ps' ps.
Proof.
  induction ps as [|p ps [IHw IH]]; simpl.
  - split; [reflexivity|]. intros ps' [= <-]. constructor.
  - destruct (p !! "_id") as [v|] eqn:Hid; [|split; [reflexivity|discriminate]].
    unfold bind, ret.
    destruct (stringify_ids ps w) as [[rest|e] w1]; simpl in *; subst w1.
    + split; [reflexivity|]. intros ps' [= <-].
      constructor; [exists v; auto | now apply IH].
    + split; [reflexivity | discriminate].
Qed.

Lemma with_id_lookup d w k :
  k <> "_id" -> fst (with_id d w) !! k = d !! k.
Proof.
  intros Hk. unfold with_id. destruct (d !! "_id"); [reflexivity|].
  simpl. now rewrite lookup_insert_ne.
Qed.

Lemma with_id_world d w :
  newsletters (snd (with_id d w)) = newsletters w
  /\ contacts (snd (with_id d w)) = contacts w
  /\ paintings (snd (with_id d w)) = paintings w
  /\ faults (snd (with_id d w)) = faults w.
Proof. unfold with_id. destruct (d !! "_id"); simpl; auto. Qed.

End DriverFacts.

(** ** The contact form *)

Module ContactFacts.
Import DriverFacts.

(** What a submission that returns has done: the response carries the
    number computed from the count, and one document, carrying the same
    number, has been added. *)
Lemma submit_contact_returns contact w resp w' :
  submit_contact contact w = (Ok resp, w') ->
  let number := contact_number_of (Z.of_nat (length (contacts w))) in
  exists submittedAt d,
    resp = {| ContactResponse.success := true;
              ContactResponse.message :=
                "Thank you for contacting us! We'll get back to you soon.";
              ContactResponse.data :=
                Some (dict [("contactNumber", VStr number);
                            ("submittedAt", VStr (isoformat submittedAt))]) |}
    /\ contacts w' = (contacts w ++ [d])%list
    /\ d !! "contactNumber" = Some (VStr number)
    /\ faults w' = tail (tail (faults w)).
Proof.
  unfold submit_contact, try_except, submit_contact_body, bind,
    count_documents, insert_one, driver_io, utcnow, raise, ret.
  destruct (next_fault w) as [e|]; [discriminate|].
  cbn beta iota zeta. rewrite filter_matches_empty.
  cbn [get_coll pop_fault contacts set_faults].
  destruct (next_fault _) as [e|]; [discriminate|].
  match goal with
  | |- context [with_id ?d ?w0] =>
      pose proof (with_id_lookup d w0 "contactNumber" ltac:(discriminate)) as Hk;
      pose proof (with_id_world d w0) as (_ & Hc & _ & Hf);
      destruct (with_id d w0) as [d' w1]
  end.
  simpl in Hk, Hc, Hf. intros [= <- <-].
  eexists _, d'. split; [reflexivity|]. split; [|split].
  - simpl. now rewrite Hc.
  - rewrite Hk. reflexivity.
  - simpl. exact Hf.
Qed.

Lemma contact_number_returns contact w resp w' :
  submit_contact contact w = (Ok resp, w') ->
  contact_number (Ok resp)
  = Some (contact_number_of (Z.of_nat (length (contacts w)))).
Proof.
  intros Hrun.
  destruct (submit_contact_returns _ _ _ _ Hrun) as (t & d & -> & _).
  reflexivity.
Qed.

(** With the storage up, a submission returns. *)
Lemma submit_contact_up contact w :
  storage_up w ->
  exists resp w',
    submit_contact contact w = (Ok resp, w') /\ storage_up w'.
Proof.
  intros Hup.
  unfold submit_contact, try_except, submit_contact_body, bind,
    count_documents, insert_one, driver_io, utcnow, raise, ret.
  rewrite (storage_up_next w Hup). cbn beta iota zeta.
  assert (Hup3 : storage_up (tick (tick (tick (pop_fault w)))))
    by now apply storage_up_pop.
  rewrite (storage_up_next _ Hup3).
  match goal with
  | |- context [with_id ?d ?w0] =>
      pose proof (with_id_world d w0) as (_ & _ & _ & Hf);
      destruct (with_id d w0) as [d' w1]
  end.
  eexists _, _. split; [reflexivity|].
  apply storage_up_pop in Hup3.
  unfold storage_up in *. simpl in *. now rewrite Hf.
Qed.

Lemma suffix_value_contact_number_of count :
  0 <= count -> suffix_value (contact_number_of count) = count + 1.
Proof.
  intros Hc. unfold suffix_value, contact_number_of. simpl.
  apply PyStrFacts.digits_value_zfill. lia.
Qed.

Lemma is_contact_number_of count :
  0 <= count < 999999 -> is_contact_number (contact_number_of count) = true.
Proof.
  intros Hc. unfold contact_number_of. simpl.
  destruct (PyStrFacts.zfill6_six_digits (count + 1) ltac:(lia)) as [-> ->].
  reflexivity.
Qed.

(** With the storage up, every submission of a series returns. *)
Lemma serve_all_up cs w :
  storage_up w -> Forall is_Ok (fst (serve_all submit_contact cs w)).
Proof.
  revert w. induction cs as [|c cs IH]; intros w Hup; simpl.
  - constructor.
  - destruct (submit_contact_up c w Hup) as (resp & w1 & -> & Hup1).
    specialize (IH w1 Hup1).
    destruct (serve_all submit_contact cs w1) as [rs w2].
    constructor; [exact I | exact IH].
Qed.

End ContactFacts.

(** ** The newsletter *)

Module NewsletterFacts.
Import DriverFacts.

Lemma email_query_matches email (d : doc) :
  matches (dict [("email", VStr email)]) d <-> d !! "email" = Some (VStr email).
Proof. apply matches_singleton. discriminate. Qed.

(** The lookup of [subscribe_newsletter] finds a document exactly when
    one holds the lower-cased address, and a document found is true. *)
Lemma lookup_found email w :
  subscribed email w ->
  exists d,
    head (filter (matches (dict [("email", VStr (PyStr.lower email))]))
                 (newsletters w)) = Some d
    /\ dict_truthy d = true.
Proof.
  intros Hsub.
  destruct (head (filter _ (newsletters w))) as [d|] eqn:Hhd.
  - exists d. split; [reflexivity|].
    apply head_filter_Some in Hhd as [Hm _].
    apply email_query_matches in Hm.
    apply bool_decide_eq_true. intros ->.
    rewrite lookup_empty in Hm. discriminate.
  - apply head_filter_None in Hhd. exfalso. apply Hhd.
    unfold subscribed in Hsub.
    eapply Exists_impl; [exact Hsub|].
    intros d Hd. now apply email_query_matches.
Qed.

Lemma lookup_fresh email w :
  ~ subscribed email w ->
  head (filter (matches (dict [("email", VStr (PyStr.lower email))]))
               (newsletters w)) = None.
Proof.
  intros Hfresh. apply head_filter_None. intros Hex. apply Hfresh.
  unfold subscribed. eapply Exists_impl; [exact Hex|].
  intros d Hd. now apply email_query_matches.
Qed.

(** An address already stored: 409, and the collection is as it was. *)
Lemma subscribe_found s w :
  next_fault w = None ->
  subscribed (NewsletterSubscription.email s) w ->
  subscribe_newsletter s w
  = (Raise (HTTPException 409
              "This email is already subscribed to our newsletter"),
     pop_fault w).
Proof.
  intros Hf Hsub.
  unfold subscribe_newsletter, try_except, subscribe_newsletter_body,
    bind, find_one, driver_io.
  rewrite Hf. cbn beta iota zeta.
  destruct (lookup_found _ w Hsub) as (d & Hhd & Htrue).
  change (get_coll Newsletters (pop_fault w)) with (newsletters w).
  rewrite Hhd. simpl. rewrite Htrue. reflexivity.
Qed.

(** A new address, with the driver answering the lookup and the insert:
    the response and the document stored. *)
Lemma subscribe_fresh s w :
  next_fault w = None -> next_fault (pop_fault w) = None ->
  ~ subscribed (NewsletterSubscription.email s) w ->
  let email := PyStr.lower (NewsletterSubscription.email s) in
  exists subscribedAt d w',
    subscribe_newsletter s w
    = (Ok {| NewsletterResponse.success := true;
             NewsletterResponse.message :=
               "Successfully subscribed to newsletter!";
             NewsletterResponse.data :=
               Some (dict [("email", VStr email);
                           ("subscribedAt",
                            VStr (isoformat subscribedAt))]) |}, w')
    /\ newsletters w' = (newsletters w ++ [d])%list
    /\ d !! "email" = Some (VStr email)
    /\ d !! "source" = Some (VStr (NewsletterSubscription.source s))
    /\ d !! "status" = Some (VStr "active")
    /\ faults w' = tail (tail (faults w)).
Proof.
  intros Hf1 Hf2 Hfresh email.
  unfold subscribe_newsletter, try_except, subscribe_newsletter_body,
    bind, find_one, insert_one, driver_io, utcnow, ret.
  rewrite Hf1. cbn beta iota zeta.
  change (get_coll Newsletters (pop_fault w)) with (newsletters w).
  rewrite (lookup_fresh _ w Hfresh). cbn [from_option].
  change (next_fault (tick (tick (tick (pop_fault w)))))
    with (next_fault (pop_fault w)).
  rewrite Hf2. cbn beta iota zeta.
  match goal with
  | |- context [with_id ?d ?w0] =>
      pose proof (with_id_lookup d w0 "email" ltac:(discriminate)) as He;
      pose proof (with_id_lookup d w0 "source" ltac:(discriminate)) as Hs;
      pose proof (with_id_lookup d w0 "status" ltac:(discriminate)) as Ha;
      pose proof (with_id_world d w0) as (Hn & _ & _ & Hfl);
      destruct (with_id d w0) as [d' w1]
  end.
  simpl in He, Hs, Ha, Hn, Hfl.
  eexists _, d', _. split; [reflexivity|].
  split; [simpl; now rewrite Hn|].
  split; [rewrite He; reflexivity|].
  split; [rewrite Hs; reflexivity|].
  split; [rewrite Ha; reflexivity|].
  simpl. exact Hfl.
Qed.

End NewsletterFacts.

(** ** The paintings *)

Module PaintingsFacts.
Import DriverFacts.

(** The documents [to_list] is asked for: the cursor limit, when there
    is one, is the length asked for, so only the latter counts. *)
Lemma fetched_docs featured limit w :
  0 <= limit_or_100 limit ->
  let cursor0 := find Paintings (featured_query featured) in
  take (Z.to_nat (limit_or_100 limit))
    (cursor_docs (if limit_truthy limit
                  then cursor_limit (default 0 limit) cursor0
                  else cursor0) w)
  = take (Z.to_nat (limit_or_100 limit))
      (filter (matches (featured_query featured)) (paintings w)).
Proof.
  intros Hpos cursor0. destruct limit as [n|]; [|reflexivity].
  unfold limit_truthy, limit_or_100 in *.
  destruct (Z.eqb_spec n 0) as [->|Hn]; [reflexivity|].
  unfold cursor_docs. simpl.
  destruct (Z.eqb_spec n 0) as [|_]; [contradiction|].
  rewrite take_take. f_equal. lia.
Qed.

(** What a listing that returns has sent. *)
Lemma get_paintings_returns featured limit w resp w' :
  get_paintings featured limit w = (Ok resp, w') ->
  0 <= limit_or_100 limit
  /\ PaintingsResult.success resp = true
  /\ Forall2 id_stringified (PaintingsResult.data resp)
       (take (Z.to_nat (limit_or_100 limit))
          (filter (matches (featured_query featured)) (paintings w))).
Proof.
  unfold get_paintings, try_except, raise.
  destruct (get_paintings_body featured limit w) as [[r|e] w1] eqn:Hbody;
    [|discriminate].
  intros [= <- <-]. revert Hbody.
  unfold get_paintings_body, bind, to_list.
  destruct (Z.ltb_spec (limit_or_100 limit) 0) as [Hneg|Hpos];
    [discriminate|].
  unfold driver_io. destruct (next_fault w); [discriminate|].
  cbn beta iota zeta.
  match goal with
  | |- context [stringify_ids ?l ?w0] =>
      destruct (stringify_ids_spec l w0) as [_ Hsent];
      destruct (stringify_ids l w0) as [[sent|e] w2]; [|discriminate]
  end.
  intros [= <- _]. split; [exact Hpos|]. split; [reflexivity|].
  simpl. specialize (Hsent sent eq_refl).
  now rewrite fetched_docs in Hsent.
Qed.

Lemma id_stringified_lookup sent p k :
  id_stringified sent p -> k <> "_id" -> sent !! k = p !! k.
Proof.
  intros (v & _ & ->) Hk. now rewrite lookup_insert_ne.
Qed.

End PaintingsFacts.

(** * The contact form: numbering and errors *)

(** C3. An accepted contact submission is numbered ["CNT"] followed by the
    count of the contact documents stored before the insert, plus one,
    padded with zeros to width 6; when that count is below 999999 the
    number is [CNT] followed by exactly six digits. *)
Theorem contact_number_format contact w resp w' :
  submit_contact contact w = (Ok resp, w') ->
  let count := Z.of_nat (length (contacts w)) in
  exists number,
    contact_number (Ok resp) = Some number
    /\ number = "CNT" ++ PyStr.zfill 6 (PyStr.str_int (count + 1))
    /\ (count < 999999 -> is_contact_number number = true).
Proof.
  intros Hrun count.
  destruct (ContactFacts.submit_contact_returns _ _ _ _ Hrun)
    as (t & d & -> & _).
  exists (contact_number_of count). split; [reflexivity|].
  split; [reflexivity|].
  intros Hlt. apply ContactFacts.is_contact_number_of. lia.
Qed.

Lemma contact_number_format_witness :
  exists resp w',
    submit_contact (Sample.contact "Asha") Sample.w0 = (Ok resp, w')
    /\ Z.of_nat (length (contacts Sample.w0)) < 999999
    /\ contact_number (Ok resp) = Some "CNT000001"
    /\ is_contact_number "CNT000001" = true.
Proof.
  destruct (submit_contact (Sample.contact "Asha") Sample.w0)
    as [[resp|e] w'] eqn:Hrun; [|vm_compute in Hrun; discriminate].
  exists resp, w'. split; [reflexivity|].
  destruct (contact_number_format _ _ _ _ Hrun) as (number & Hn & -> & Hfmt).
  split; [simpl; lia|]. split; [exact Hn|].
  apply Hfmt. simpl. lia.
Defined.

(** C4. In [submit_contact] every exception raised in the body of the
    [try] (by the count, by the insert, of whatever class) is answered
    with an [HTTPException] of status 500 whose detail ends with the
    text of that exception, and the handler raises nothing else. *)
Theorem submit_contact_errors_are_500 contact w :
  (forall e w',
      submit_contact_body contact w = (Raise e, w') ->
      submit_contact contact w =
      (Raise (HTTPException 500
                ("Failed to submit contact form: " ++ str_exn e)), w'))
  /\ (forall e w',
      submit_contact contact w = (Raise e, w') ->
      http_status (Raise e : result ContactResponse.t) = 500
      /\ exists e0,
          submit_contact_body contact w = (Raise e0, w')
          /\ e = HTTPException 500
                   ("Failed to submit contact form: " ++ str_exn e0))
  /\ (forall e,
      next_fault w = Some e ->
      submit_contact_body contact w = (Raise e, pop_fault w))
  /\ (forall e,
      next_fault w = None -> next_fault (pop_fault w) = Some e ->
      fst (submit_contact_body contact w) = Raise e).
Proof.
  split; [|split; [|split]].
  - intros e w' Hbody. unfold submit_contact, try_except.
    now rewrite Hbody.
  - intros e w'. unfold submit_contact, try_except, raise.
    destruct (submit_contact_body contact w) as [[resp|e0] w1];
      [discriminate|].
    intros [= <- <-]. split; [reflexivity|]. now exists e0.
  - intros e Hf.
    unfold submit_contact_body, bind, count_documents, driver_io.
    now rewrite Hf.
  - intros e Hf1 Hf2.
    unfold submit_contact_body, bind, count_documents, insert_one,
      driver_io, utcnow.
    rewrite Hf1. cbn beta iota zeta.
    change (next_fault (tick (tick (tick (pop_fault w)))))
      with (next_fault (pop_fault w)).
    now rewrite Hf2.
Qed.

Lemma submit_contact_errors_are_500_witness :
  submit_contact (Sample.contact "Asha") Sample.w_down =
  (Raise (HTTPException 500
            "Failed to submit contact form: localhost:27017: connection refused"),
   pop_fault Sample.w_down)
  /\ fst (submit_contact (Sample.contact "Asha") Sample.w_down2) =
     Raise (HTTPException 500
              "Failed to submit contact form: connection closed").
Proof.
  pose proof (submit_contact_errors_are_500 (Sample.contact "Asha")
                Sample.w_down) as (Hcatch & _ & Hcount & _).
  pose proof (submit_contact_errors_are_500 (Sample.contact "Asha")
                Sample.w_down2) as (Hcatch2 & _ & _ & Hinsert).
  split.
  - apply (Hcatch _ _ (Hcount _ eq_refl)).
  - specialize (Hinsert _ eq_refl eq_refl).
    destruct (submit_contact_body (Sample.contact "Asha") Sample.w_down2)
      as [r w'] eqn:Hbody.
    simpl in Hinsert. subst r.
    now rewrite (Hcatch2 _ _ eq_refl).
Defined.

(** C9. Contacts submitted one after the other, all accepted, starting
    from [C] stored contact documents, are numbered [C+1], [C+2], ...,
    [C+N] in that order, and each of them has added one document. *)
Theorem sequential_contact_numbers cs w :
  Forall is_Ok (fst (serve_all submit_contact cs w)) ->
  let C := Z.of_nat (length (contacts w)) in
  contact_suffix <$> fst (serve_all submit_contact cs w)
  = Some <$> seqZ (C + 1) (Z.of_nat (length cs))
  /\ length (contacts (snd (serve_all submit_contact cs w)))
     = (length (contacts w) + length cs)%nat.
Proof.
  revert w. induction cs as [|c cs IH]; intros w Hall C.
  - simpl. split; [reflexivity | lia].
  - simpl in Hall |- *.
    destruct (submit_contact c w) as [r w1] eqn:Hrun.
    specialize (IH w1).
    destruct (serve_all submit_contact cs w1) as [rs w2].
    simpl in *. inversion Hall as [|? ? Hr Hrs]; subst.
    destruct r as [resp|e]; [|contradiction].
    pose proof (ContactFacts.contact_number_returns _ _ _ _ Hrun) as Hnum.
    destruct (ContactFacts.submit_contact_returns _ _ _ _ Hrun)
      as (_ & d & _ & Hlen & _).
    destruct (IH Hrs) as [IHn IHl].
    rewrite Hlen, length_app in IHn, IHl. simpl in IHn, IHl.
    split; [|lia].
    rewrite seqZ_cons by lia. rewrite !fmap_cons. f_equal.
    + unfold contact_suffix. rewrite Hnum. simpl. f_equal.
      apply ContactFacts.suffix_value_contact_number_of. lia.
    + change (contact_suffix <$> rs
              = Some <$> seqZ (Z.succ (C + 1))
                           (Z.pred (Z.of_nat (S (length cs))))).
      rewrite IHn. f_equal. f_equal; lia.
Qed.

Lemma sequential_contact_numbers_witness :
  Forall is_Ok
    (fst (serve_all submit_contact
            [Sample.contact "Asha"; Sample.contact "Ravi"; Sample.contact "Mei"]
            Sample.w0))
  /\ contact_suffix <$>
       fst (serve_all submit_contact
              [Sample.contact "Asha"; Sample.contact "Ravi"; Sample.contact "Mei"]
              Sample.w0)
     = [Some 1; Some 2; Some 3].
Proof.
  assert (Hall : Forall is_Ok
    (fst (serve_all submit_contact
            [Sample.contact "Asha"; Sample.contact "Ravi"; Sample.contact "Mei"]
            Sample.w0))).
  { vm_compute. repeat constructor. }
  split; [exact Hall|].
  exact (proj1 (sequential_contact_numbers _ _ Hall)).
Defined.

(** * The newsletter *)

(** C2. With the storage answering, subscribing the same address twice in
    a row succeeds the first time, when no stored subscription holds the
    address yet, and is refused with a 409 the second time.  The address
    is looked up lower-cased, by equality with the stored [email] field,
    and whenever a document is found the handler raises the 409 and the
    collection is left as it was. *)
Theorem subscribe_twice_conflict :
  (forall s w,
      next_fault w = None ->
      subscribed (NewsletterSubscription.email s) w ->
      exists w',
        subscribe_newsletter s w
        = (Raise (HTTPException 409
                    "This email is already subscribed to our newsletter"), w')
        /\ newsletters w' = newsletters w)
  /\ (forall s1 s2 w,
      storage_up w ->
      PyStr.lower (NewsletterSubscription.email s2)
      = PyStr.lower (NewsletterSubscription.email s1) ->
      exists r1 w1 w2,
        subscribe_newsletter s1 w = (r1, w1)
        /\ (~ subscribed (NewsletterSubscription.email s1) w ->
            exists resp,
              r1 = Ok resp /\ NewsletterResponse.success resp = true)
        /\ subscribe_newsletter s2 w1
           = (Raise (HTTPException 409
                       "This email is already subscribed to our newsletter"),
              w2)
        /\ http_status (fst (subscribe_newsletter s2 w1)) = 409
        /\ newsletters w2 = newsletters w1).
Proof.
  split.
  - intros s w Hf Hsub. exists (pop_fault w).
    split; [now apply NewsletterFacts.subscribe_found | reflexivity].
  - intros s1 s2 w Hup Hsame.
    pose proof (DriverFacts.storage_up_pop w Hup) as Hup1.
    assert (Hfirst : exists r1 w1,
               subscribe_newsletter s1 w = (r1, w1)
               /\ (~ subscribed (NewsletterSubscription.email s1) w ->
                   exists resp,
                     r1 = Ok resp /\ NewsletterResponse.success resp = true)
               /\ storage_up w1
               /\ subscribed (NewsletterSubscription.email s2) w1).
    { destruct (decide (subscribed (NewsletterSubscription.email s1) w))
        as [Hold|Hfresh].
      - eexists _, (pop_fault w).
        split; [apply NewsletterFacts.subscribe_found;
                [now apply DriverFacts.storage_up_next | exact Hold]|].
        split; [intros Hfresh; contradiction|]. split; [exact Hup1|].
        unfold subscribed in *. now rewrite Hsame.
      - destruct (NewsletterFacts.subscribe_fresh s1 w
                    (DriverFacts.storage_up_next w Hup)
                    (DriverFacts.storage_up_next _ Hup1) Hfresh)
          as (t & d & w1 & Hrun1 & Hnew & Hemail & _ & _ & Hfl).
        eexists _, w1. split; [exact Hrun1|].
        split; [intros _; eexists; split; reflexivity|]. split.
        + unfold storage_up in *. rewrite Hfl.
          apply DriverFacts.storage_up_pop in Hup1. exact Hup1.
        + unfold subscribed. rewrite Hnew, Hsame.
          apply Exists_app. right. now constructor. }
    destruct Hfirst as (r1 & w1 & Hrun1 & Hok & Hup2 & Hsub).
    pose proof (NewsletterFacts.subscribe_found s2 w1
                  (DriverFacts.storage_up_next w1 Hup2) Hsub) as Hrun2.
    exists r1, w1, (pop_fault w1).
    split; [exact Hrun1|]. split; [exact Hok|].
    split; [exact Hrun2|]. split; [now rewrite Hrun2 | reflexivity].
Qed.

Lemma subscribe_twice_conflict_witness :
  storage_up Sample.w0
  /\ ~ subscribed "Asha@Example.com" Sample.w0
  /\ exists resp w1 w2,
      subscribe_newsletter Sample.subscription Sample.w0 = (Ok resp, w1)
      /\ subscribe_newsletter
           (NewsletterSubscription.make "asha@example.COM" (Some "footer")) w1
         = (Raise (HTTPException 409
                     "This email is already subscribed to our newsletter"), w2)
      /\ newsletters w2 = newsletters w1.
Proof.
  assert (Hup : storage_up Sample.w0) by (vm_compute; constructor).
  assert (Hfresh : ~ subscribed "Asha@Example.com" Sample.w0)
    by (intros Hex; inversion Hex).
  split; [exact Hup|]. split; [exact Hfresh|].
  destruct (proj2 subscribe_twice_conflict Sample.subscription
              (NewsletterSubscription.make "asha@example.COM" (Some "footer"))
              Sample.w0 Hup eq_refl)
    as (r1 & w1 & w2 & H1 & Hok & H2 & _ & H3).
  destruct (Hok Hfresh) as (resp & -> & _).
  exists resp, w1, w2. auto.
Defined.

(** C8. With the storage answering, subscribing an address that no stored
    subscription holds succeeds; the response data carry the address
    lower-cased, and the document added holds the same lower-cased
    address, the status ["active"] and the source of the request,
    ["homepage"] when the request gives none. *)
Theorem subscribe_fresh_email email source w :
  storage_up w ->
  ~ subscribed email w ->
  exists resp data w' d,
    subscribe_newsletter (NewsletterSubscription.make email source) w
    = (Ok resp, w')
    /\ NewsletterResponse.success resp = true
    /\ NewsletterResponse.data resp = Some data
    /\ data !! "email" = Some (VStr (PyStr.lower email))
    /\ newsletters w' = (newsletters w ++ [d])%list
    /\ d !! "email" = Some (VStr (PyStr.lower email))
    /\ d !! "status" = Some (VStr "active")
    /\ d !! "source"
       = Some (VStr (match source with Some src => src | None => "homepage" end)).
Proof.
  intros Hup Hfresh.
  pose proof (DriverFacts.storage_up_pop w Hup) as Hup1.
  destruct (NewsletterFacts.subscribe_fresh
              (NewsletterSubscription.make email source) w
              (DriverFacts.storage_up_next w Hup)
              (DriverFacts.storage_up_next _ Hup1) Hfresh)
    as (t & d & w' & Hrun & Hnew & Hemail & Hsource & Hstatus & _).
  eexists _, _, w', d. split; [exact Hrun|].
  split; [reflexivity|]. split; [reflexivity|]. split; [reflexivity|].
  split; [exact Hnew|]. split; [exact Hemail|]. split; [exact Hstatus|].
  rewrite Hsource. now destruct source.
Qed.

Lemma subscribe_fresh_email_witness :
  storage_up Sample.w0
  /\ ~ subscribed "Asha@Example.com" Sample.w0
  /\ exists resp data w' d,
      subscribe_newsletter Sample.subscription Sample.w0 = (Ok resp, w')
      /\ NewsletterResponse.data resp = Some data
      /\ data !! "email" = Some (VStr "asha@example.com")
      /\ newsletters w' = [d]
      /\ d !! "email" = Some (VStr "asha@example.com")
      /\ d !! "status" = Some (VStr "active")
      /\ d !! "source" = Some (VStr "homepage").
Proof.
  assert (Hup : storage_up Sample.w0) by (vm_compute; constructor).
  assert (Hfresh : ~ subscribed "Asha@Example.com" Sample.w0)
    by (intros Hex; inversion Hex).
  split; [exact Hup|]. split; [exact Hfresh|].
  destruct (subscribe_fresh_email "Asha@Example.com" None Sample.w0 Hup Hfresh)
    as (resp & data & w' & d & H1 & _ & H2 & H3 & H4 & H5 & H6 & H7).
  exists resp, data, w', d. auto 10.
Defined.

(** * Health *)

(** C5. [health_check] always returns, so the answer is always a 200:
    when the probe succeeds the payload says ["healthy"] and
    ["connected"]; when the probe raises, the exception is caught and the
    payload says ["unhealthy"], ["disconnected"] and carries the text of
    the exception under ["error"]. *)
Theorem health_check_always_200 w :
  is_Ok (fst (health_check w))
  /\ http_status (fst (health_check w)) = 200
  /\ (forall w1,
      ping w = (Ok tt, w1) ->
      health_check w
      = (Ok (dict [("status", VStr "healthy");
                   ("database", VStr "connected");
                   ("timestamp",
                    VStr (isoformat (clock w1 (clock_reads w1))))]),
         tick w1))
  /\ (forall e w1,
      ping w = (Raise e, w1) ->
      health_check w
      = (Ok (dict [("status", VStr "unhealthy");
                   ("database", VStr "disconnected");
                   ("error", VStr (str_exn e));
                   ("timestamp",
                    VStr (isoformat (clock w1 (clock_reads w1))))]),
         tick w1)).
Proof.
  unfold health_check, try_except, bind, ping, driver_io, utcnow, ret.
  destruct (next_fault w) as [e|]; simpl.
  - split; [exact I|]. split; [reflexivity|]. split; [discriminate|].
    now intros e' w1 [= <- <-].
  - split; [exact I|]. split; [reflexivity|]. split; [|discriminate].
    now intros w1 [= <-].
Qed.

Lemma health_check_always_200_witness :
  (exists payload w',
      health_check Sample.w0 = (Ok payload, w')
      /\ payload !! "status" = Some (VStr "healthy")
      /\ payload !! "database" = Some (VStr "connected")
      /\ payload !! "error" = None)
  /\ (exists payload w',
      health_check Sample.w_down = (Ok payload, w')
      /\ payload !! "status" = Some (VStr "unhealthy")
      /\ payload !! "database" = Some (VStr "disconnected")
      /\ payload !! "error"
         = Some (VStr "localhost:27017: connection refused")).
Proof.
  split.
  - destruct (health_check_always_200 Sample.w0) as (_ & _ & Hup & _).
    eexists _, _. split; [apply Hup; reflexivity|].
    repeat split; reflexivity.
  - destruct (health_check_always_200 Sample.w_down) as (_ & _ & _ & Hdown).
    eexists _, _. split; [apply Hdown; reflexivity|].
    repeat split; reflexivity.
Defined.

(** * The paintings *)

(** C6, as the spec states it, fails: a request with [limit=0] is
    answered with every painting, three here, which is more than [0]. *)
Lemma paintings_limit_zero_not_capped :
  ~ (forall w featured limit resp w',
        get_paintings featured limit w = (Ok resp, w') ->
        Z.of_nat (length (PaintingsResult.data resp))
        <= match limit with Some n => n | None => 100 end).
Proof.
  intros Hclaim.
  destruct (get_paintings None (Some 0) Sample.w0) as [[resp|e] w'] eqn:Hrun;
    [|vm_compute in Hrun; discriminate].
  specialize (Hclaim _ _ _ _ _ Hrun).
  vm_compute in Hrun. injection Hrun as <- _.
  vm_compute in Hclaim. apply Hclaim. reflexivity.
Qed.

(** C6, amended. The data of an answer of [get_paintings] hold at most
    [limit] documents when a limit other than [0] is given, and at most
    100 when no limit is given or the limit is [0]; a negative limit is
    answered with a 500 and no data. *)
Theorem paintings_capped featured limit w :
  (forall resp w',
      get_paintings featured limit w = (Ok resp, w') ->
      Z.of_nat (length (PaintingsResult.data resp))
      <= match limit with
         | Some n => if n =? 0 then 100 else n
         | None => 100
         end)
  /\ (forall n,
      limit = Some n -> n < 0 ->
      get_paintings featured limit w
      = (Raise (HTTPException 500
                  "Failed to fetch paintings: length must be non-negative"),
         w)).
Proof.
  split.
  - intros resp w' Hrun.
    destruct (PaintingsFacts.get_paintings_returns _ _ _ _ _ Hrun)
      as (Hpos & _ & Hsent).
    apply Forall2_length in Hsent. rewrite length_take in Hsent.
    change (match limit with
            | Some n => if n =? 0 then 100 else n
            | None => 100
            end) with (limit_or_100 limit).
    lia.
  - intros n -> Hneg.
    unfold get_paintings, try_except, get_paintings_body, bind, to_list,
      limit_or_100.
    destruct (Z.eqb_spec n 0) as [|_]; [lia|].
    destruct (Z.ltb_spec n 0) as [_|]; [reflexivity | lia].
Qed.

Lemma paintings_capped_witness :
  (exists resp w',
      get_paintings None (Some 2) Sample.w0 = (Ok resp, w')
      /\ length (PaintingsResult.data resp) = 2%nat)
  /\ fst (get_paintings None (Some (-1)) Sample.w0)
     = Raise (HTTPException 500
                "Failed to fetch paintings: length must be non-negative").
Proof.
  split.
  - destruct (get_paintings None (Some 2) Sample.w0) as [[resp|e] w'] eqn:Hrun;
      [|vm_compute in Hrun; discriminate].
    exists resp, w'. split; [reflexivity|].
    pose proof (proj1 (paintings_capped None (Some 2) Sample.w0) _ _ Hrun)
      as Hcap.
    vm_compute in Hrun. injection Hrun as <- _. reflexivity.
  - now rewrite (proj2 (paintings_capped None (Some (-1)) Sample.w0)
                   (-1) eq_refl eq_refl).
Defined.

(** C7. When [featured] is given, every document of the data of an
    answer of [get_paintings] has that boolean in its [featured] field;
    when it is not given the query is empty and the data are the first
    documents of the whole collection, whatever their [featured] field. *)
Theorem paintings_featured_filter limit w resp w' :
  (forall b,
      get_paintings (Some b) limit w = (Ok resp, w') ->
      Forall (fun d : doc => d !! "featured" = Some (VBool b))
             (PaintingsResult.data resp))
  /\ (get_paintings None limit w = (Ok resp, w') ->
      featured_query None = ∅
      /\ Forall2 id_stringified (PaintingsResult.data resp)
           (take (Z.to_nat (limit_or_100 limit)) (paintings w))).
Proof.
  split.
  - intros b Hrun.
    destruct (PaintingsFacts.get_paintings_returns _ _ _ _ _ Hrun)
      as (_ & _ & Hsent).
    apply Forall_forall. intros sent Hin.
    apply list_elem_of_lookup in Hin as [i Hi].
    destruct (Forall2_lookup_l _ _ _ _ _ Hsent Hi) as (p & Hp & Hrel).
    rewrite (PaintingsFacts.id_stringified_lookup _ _ "featured" Hrel)
      by discriminate.
    apply list_elem_of_lookup_2, subseteq_take in Hp.
    apply list_elem_of_filter in Hp as [Hm _].
    now apply DriverFacts.matches_featured.
  - intros Hrun. split; [reflexivity|].
    destruct (PaintingsFacts.get_paintings_returns _ _ _ _ _ Hrun)
      as (_ & _ & Hsent).
    simpl in Hsent. now rewrite DriverFacts.filter_matches_empty in Hsent.
Qed.

Lemma paintings_featured_filter_witness :
  exists resp w',
    get_paintings (Some true) None Sample.w0 = (Ok resp, w')
    /\ length (PaintingsResult.data resp) = 2%nat
    /\ Forall (fun d : doc => d !! "featured" = Some (VBool true))
              (PaintingsResult.data resp).
Proof.
  destruct (get_paintings (Some true) None Sample.w0)
    as [[resp|e] w'] eqn:Hrun; [|vm_compute in Hrun; discriminate].
  exists resp, w'. split; [reflexivity|].
  split.
  - vm_compute in Hrun. injection Hrun as <- _. reflexivity.
  - exact (proj1 (paintings_featured_filter None Sample.w0 resp w') true Hrun).
Defined.

(** C10. A request with [limit=0] is served as a request without limit:
    the cursor is given no limit and the data are the first 100 matching
    documents. *)
Theorem paintings_limit_zero_is_absent featured w :
  get_paintings featured (Some 0) w = get_paintings featured None w
  /\ limit_truthy (Some 0) = false
  /\ limit_or_100 (Some 0) = 100
  /\ forall resp w',
      get_paintings featured (Some 0) w = (Ok resp, w') ->
      Forall2 id_stringified (PaintingsResult.data resp)
        (take 100 (filter (matches (featured_query featured)) (paintings w)))
      /\ length (PaintingsResult.data resp)
         = Nat.min 100
             (length (filter (matches (featured_query featured)) (paintings w))).
Proof.
  split; [reflexivity|]. split; [reflexivity|]. split; [reflexivity|].
  intros resp w' Hrun.
  destruct (PaintingsFacts.get_paintings_returns _ _ _ _ _ Hrun)
    as (_ & _ & Hsent).
  change (Z.to_nat (limit_or_100 (Some 0))) with 100%nat in Hsent.
  split; [exact Hsent|].
  apply Forall2_length in Hsent. now rewrite length_take in Hsent.
Qed.

Lemma paintings_limit_zero_is_absent_witness :
  exists resp w',
    get_paintings None (Some 0) Sample.w0 = (Ok resp, w')
    /\ length (PaintingsResult.data resp) = 3%nat.
Proof.
  destruct (get_paintings None (Some 0) Sample.w0) as [[resp|e] w'] eqn:Hrun;
    [|vm_compute in Hrun; discriminate].
  exists resp, w'. split; [reflexivity|].
  destruct (paintings_limit_zero_is_absent None Sample.w0)
    as (_ & _ & _ & Hdata).
  destruct (Hdata _ _ Hrun) as [_ ->]. reflexivity.
Defined.

(** * Validation of a contact submission *)

(** C1, as the spec states it, fails: the name ["a "] is accepted, and
    trimmed it has length 1. *)
Lemma name_validation_not_trimmed :
  ~ (forall name,
        ContactSubmission.name_valid name = true
        <-> 2 <= PyStr.len (PyStr.strip name) <= 100).
Proof.
  intros Hclaim.
  pose proof (proj1 (Hclaim "a ") eq_refl) as [Hlo _].
  vm_compute in Hlo. apply Hlo. reflexivity.
Qed.

(** C1, amended. A name is accepted if and only if its length, as it is
    sent, is within [2,100], and a message if and only if its length,
    as it is sent, is within [10,1000]; so a name of length 1 and a
    message of length 9 are refused, and lengths 2 and 10 are accepted. *)
Theorem contact_validation_lengths :
  (forall name,
      ContactSubmission.name_valid name = true
      <-> 2 <= PyStr.len name <= 100)
  /\ (forall message,
      ContactSubmission.message_valid message = true
      <-> 10 <= PyStr.len message <= 1000)
  /\ (forall name, PyStr.len name = 1 -> ContactSubmission.name_valid name = false)
  /\ (forall name, PyStr.len name = 2 -> ContactSubmission.name_valid name = true)
  /\ (forall message,
      PyStr.len message = 9 -> ContactSubmission.message_valid message = false)
  /\ (forall message,
      PyStr.len message = 10 -> ContactSubmission.message_valid message = true).
Proof.
  assert (Hwithin : forall lo hi s,
             ContactSubmission.length_within lo hi s = true
             <-> lo <= PyStr.len s <= hi).
  { intros lo hi s. unfold ContactSubmission.length_within.
    rewrite andb_true_iff, !Z.leb_le. reflexivity. }
  assert (Hnot : forall lo hi s,
             ~ lo <= PyStr.len s <= hi ->
             ContactSubmission.length_within lo hi s = false).
  { intros lo hi s Hout. apply not_true_is_false. intros Hin.
    now apply Hout, Hwithin. }
  unfold ContactSubmission.name_valid, ContactSubmission.message_valid.
  split; [intros name; apply Hwithin|].
  split; [intros message; apply Hwithin|].
  split; [intros name Hlen; apply Hnot; lia|].
  split; [intros name Hlen; apply Hwithin; lia|].
  split; [intros message Hlen; apply Hnot; lia|].
  intros message Hlen. apply Hwithin. lia.
Qed.

Lemma contact_validation_lengths_witness :
  ContactSubmission.name_valid "A" = false
  /\ ContactSubmission.name_valid "Al" = true
  /\ ContactSubmission.message_valid "123456789" = false
  /\ ContactSubmission.message_valid "1234567890" = true
  /\ ContactSubmission.name_valid "a " = true.
Proof.
  destruct contact_validation_lengths as (Hname & _ & H1 & H2 & H9 & H10).
  split; [apply H1; reflexivity|].
  split; [apply H2; reflexivity|].
  split; [apply H9; reflexivity|].
  split; [apply H10; reflexivity|].
  apply Hname. vm_compute. split; discriminate.
Defined.

(** * Further properties of the routes *)

(** ** Every way a request can go *)

Module OutcomeFacts.
Import DriverFacts.

Lemma with_id_has_id d w : is_Some (fst (with_id d w) !! "_id").
Proof.
  unfold with_id. destruct (d !! "_id") as [v|] eqn:Hid; simpl.
  - rewrite Hid. now exists v.
  - rewrite lookup_insert_eq. now eexists.
Qed.

(** The four ways [subscribe_newsletter] can go: the lookup fails, the
    address is found, the insert fails, the subscription is stored. *)
Lemma subscribe_cases s w :
  let email := PyStr.lower (NewsletterSubscription.email s) in
  (exists e,
      next_fault w = Some e
      /\ subscribe_newsletter s w
         = (Raise (subscribe_newsletter_error e), pop_fault w))
  \/ (next_fault w = None
      /\ subscribed (NewsletterSubscription.email s) w
      /\ subscribe_newsletter s w
         = (Raise (HTTPException 409
                     "This email is already subscribed to our newsletter"),
            pop_fault w))
  \/ (next_fault w = None
      /\ ~ subscribed (NewsletterSubscription.email s) w
      /\ exists e w',
          next_fault (pop_fault w) = Some e
          /\ subscribe_newsletter s w
             = (Raise (subscribe_newsletter_error e), w')
          /\ same_database w w')
  \/ (next_fault w = None
      /\ ~ subscribed (NewsletterSubscription.email s) w
      /\ exists d w' subscribedAt createdAt updatedAt,
          subscribe_newsletter s w
          = (Ok {| NewsletterResponse.success := true;
                   NewsletterResponse.message :=
                     "Successfully subscribed to newsletter!";
                   NewsletterResponse.data :=
                     Some (dict [("email", VStr email);
                                 ("subscribedAt",
                                  VStr (isoformat subscribedAt))]) |}, w')
          /\ newsletters w' = (newsletters w ++ [d])%list
          /\ contacts w' = contacts w
          /\ paintings w' = paintings w
          /\ is_Some (d !! "_id")
          /\ forall k, k <> "_id" ->
               d !! k
               = newsletter_document s subscribedAt createdAt updatedAt !! k).
Proof.
  intros email.
  destruct (next_fault w) as [e|] eqn:Hf1.
  { left. exists e. split; [reflexivity|].
    unfold subscribe_newsletter, try_except, subscribe_newsletter_body,
      bind, find_one, driver_io.
    rewrite Hf1. now destruct e. }
  right.
  destruct (decide (subscribed (NewsletterSubscription.email s) w))
    as [Hold|Hfresh].
  { left. split; [reflexivity|]. split; [exact Hold|].
    now apply NewsletterFacts.subscribe_found. }
  right. unfold subscribe_newsletter, try_except, subscribe_newsletter_body,
    bind, find_one, insert_one, driver_io, utcnow, ret.
  rewrite Hf1. cbn beta iota zeta.
  change (get_coll Newsletters (pop_fault w)) with (newsletters w).
  rewrite (NewsletterFacts.lookup_fresh _ w Hfresh). cbn [from_option].
  change (next_fault (tick (tick (tick (pop_fault w)))))
    with (next_fault (pop_fault w)).
  destruct (next_fault (pop_fault w)) as [e|] eqn:Hf2.
  { left. split; [reflexivity|]. split; [exact Hfresh|].
    eexists e, _. split; [reflexivity|].
    split; [now destruct e | repeat split]. }
  right. split; [reflexivity|]. split; [exact Hfresh|].
  cbn beta iota zeta.
  match goal with
  | |- context [with_id ?d ?w0] =>
      pose proof (with_id_lookup d w0) as Hk;
      pose proof (with_id_has_id d w0) as Hid;
      pose proof (with_id_world d w0) as (Hn & Hc & Hp & _);
      destruct (with_id d w0) as [d' w1]
  end.
  simpl in Hk, Hid, Hn, Hc, Hp.
  eexists d', _, _, _, _. split; [reflexivity|]. simpl.
  rewrite Hn, Hc, Hp. repeat split; try reflexivity; [exact Hid|].
  intros k Hne. now rewrite Hk.
Qed.

(** The three ways [submit_contact] can go: the count fails, the insert
    fails, the contact is stored. *)
Lemma submit_contact_cases contact w :
  let number := contact_number_of (Z.of_nat (length (contacts w))) in
  (exists e,
      next_fault w = Some e
      /\ submit_contact contact w
         = (Raise (HTTPException 500
                     ("Failed to submit contact form: " ++ str_exn e)),
            pop_fault w))
  \/ (next_fault w = None
      /\ exists e w',
          next_fault (pop_fault w) = Some e
          /\ submit_contact contact w
             = (Raise (HTTPException 500
                         ("Failed to submit contact form: " ++ str_exn e)),
                w')
          /\ same_database w w')
  \/ (next_fault w = None
      /\ next_fault (pop_fault w) = None
      /\ exists d w' submittedAt createdAt updatedAt,
          submit_contact contact w
          = (Ok {| ContactResponse.success := true;
                   ContactResponse.message :=
                     "Thank you for contacting us! We'll get back to you soon.";
                   ContactResponse.data :=
                     Some (dict [("contactNumber", VStr number);
                                 ("submittedAt",
                                  VStr (isoformat submittedAt))]) |}, w')
          /\ contacts w' = (contacts w ++ [d])%list
          /\ newsletters w' = newsletters w
          /\ paintings w' = paintings w
          /\ is_Some (d !! "_id")
          /\ forall k, k <> "_id" ->
               d !! k
               = contact_document contact number
                   submittedAt createdAt updatedAt !! k).
Proof.
  intros number.
  unfold submit_contact, try_except, submit_contact_body, bind,
    count_documents, insert_one, driver_io, utcnow, raise, ret.
  destruct (next_fault w) as [e|] eqn:Hf1.
  { left. now exists e. }
  right. cbn beta iota zeta. rewrite filter_matches_empty.
  cbn [get_coll pop_fault contacts set_faults]. fold number.
  change (next_fault (tick (tick (tick (pop_fault w)))))
    with (next_fault (pop_fault w)).
  destruct (next_fault (pop_fault w)) as [e|] eqn:Hf2.
  { left. split; [reflexivity|]. eexists e, _.
    split; [reflexivity|]. split; [reflexivity | repeat split]. }
  right. split; [reflexivity|]. split; [reflexivity|].
  match goal with
  | |- context [with_id ?d ?w0] =>
      pose proof (with_id_lookup d w0) as Hk;
      pose proof (with_id_has_id d w0) as Hid;
      pose proof (with_id_world d w0) as (Hn & Hc & Hp & _);
      destruct (with_id d w0) as [d' w1]
  end.
  simpl in Hk, Hid, Hn, Hc, Hp.
  eexists d', _, _, _, _. split; [reflexivity|]. simpl.
  rewrite Hn, Hc, Hp. repeat split; try reflexivity; [exact Hid|].
  intros k Hne. now rewrite Hk.
Qed.

(** [stringify_ids] succeeds when every document has an [_id] ... *)
Lemma stringify_ids_total ps w :
  Forall (fun p : doc => is_Some (p !! "_id")) ps ->
  exists ps',
    stringify_ids ps w = (Ok ps', w) /\ Forall2 id_stringified ps' ps.
Proof.
  induction 1 as [|p ps [v Hv] _ (ps' & IH & Hrel)]; simpl.
  - exists []. split; [reflexivity | constructor].
  - rewrite Hv. unfold bind, ret. rewrite IH.
    eexists. split; [reflexivity|]. constructor; [|exact Hrel].
    exists v. auto.
Qed.

(** ... and raises [KeyError] when one has none. *)
Lemma stringify_ids_missing ps w :
  Exists (fun p : doc => p !! "_id" = None) ps ->
  stringify_ids ps w = (Raise (PyException "KeyError" "'_id'"), w).
Proof.
  induction ps as [|p ps IH]; intros Hex; [inversion Hex|]. simpl.
  destruct (p !! "_id") as [v|] eqn:Hv; [|reflexivity].
  unfold bind. rewrite IH; [reflexivity|].
  inversion Hex as [? ? Hp|? ? Hps]; subst; [congruence | exact Hps].
Qed.

(** The four ways [get_paintings] can go: a negative length, a failure
    of the driver, a document without [_id], an answer. *)
Lemma get_paintings_cases featured limit w :
  let fetched := fetched_paintings featured limit w in
  (limit_or_100 limit < 0
   /\ get_paintings featured limit w
      = (Raise (HTTPException 500
                  "Failed to fetch paintings: length must be non-negative"),
         w))
  \/ (0 <= limit_or_100 limit
      /\ exists e,
          next_fault w = Some e
          /\ get_paintings featured limit w
             = (Raise (HTTPException 500
                         ("Failed to fetch paintings: " ++ str_exn e)),
                pop_fault w))
  \/ (0 <= limit_or_100 limit
      /\ next_fault w = None
      /\ Exists (fun p : doc => p !! "_id" = None) fetched
      /\ get_paintings featured limit w
         = (Raise (HTTPException 500 "Failed to fetch paintings: '_id'"),
            pop_fault w))
  \/ (0 <= limit_or_100 limit
      /\ next_fault w = None
      /\ Forall (fun p : doc => is_Some (p !! "_id")) fetched
      /\ exists sent,
          get_paintings featured limit w
          = (Ok {| PaintingsResult.success := true;
                   PaintingsResult.data := sent |}, pop_fault w)
          /\ Forall2 id_stringified sent fetched).
Proof.
  intros fetched.
  unfold get_paintings, try_except, get_paintings_body, bind, to_list.
  destruct (Z.ltb_spec (limit_or_100 limit) 0) as [Hneg|Hpos].
  { left. split; [exact Hneg | reflexivity]. }
  right. unfold driver_io.
  destruct (next_fault w) as [e|] eqn:Hf.
  { left. split; [exact Hpos|]. now exists e. }
  right. cbn beta iota zeta.
  pose proof (PaintingsFacts.fetched_docs featured limit (pop_fault w) Hpos)
    as Hfetched.
  cbv zeta in Hfetched. rewrite Hfetched.
  change (take (Z.to_nat (limit_or_100 limit))
            (filter (matches (featured_query featured))
                    (paintings (pop_fault w)))) with fetched.
  destruct (decide (Exists (fun p : doc => p !! "_id" = None) fetched))
    as [Hmiss|Hall].
  - left. split; [exact Hpos|]. split; [reflexivity|]. split; [exact Hmiss|].
    now rewrite (stringify_ids_missing _ _ Hmiss).
  - right. split; [exact Hpos|]. split; [reflexivity|].
    assert (Hids : Forall (fun p : doc => is_Some (p !! "_id")) fetched).
    { apply not_Exists_Forall in Hall; [|intros p; apply _].
      eapply Forall_impl; [exact Hall|].
      intros p Hp. now apply not_eq_None_Some. }
    split; [exact Hids|].
    destruct (stringify_ids_total fetched (pop_fault w) Hids)
      as (sent & -> & Hrel).
    now exists sent.
Qed.

End OutcomeFacts.

(** ** The newsletter: errors, writes, uniqueness *)

(** X1. [subscribe_newsletter] only ever raises an [HTTPException]: the
    409 when the address is stored, and otherwise what the [except]
    clauses make of an exception of the driver, that is the exception
    itself when it is an [HTTPException] and a 500 carrying its text
    when it is not. *)
Theorem subscribe_newsletter_raises s w e w' :
  subscribe_newsletter s w = (Raise e, w') ->
  (exists status_code detail, e = HTTPException status_code detail)
  /\ ((e = HTTPException 409
             "This email is already subscribed to our newsletter"
       /\ subscribed (NewsletterSubscription.email s) w)
      \/ exists e0,
          (next_fault w = Some e0
           \/ next_fault w = None /\ next_fault (pop_fault w) = Some e0)
          /\ e = match e0 with
                 | HTTPException _ _ => e0
                 | PyException _ _ =>
                     HTTPException 500
                       ("Failed to subscribe to newsletter: " ++ str_exn e0)
                 end).
Proof.
  intros Hrun.
  destruct (OutcomeFacts.subscribe_cases s w)
    as [(e0 & Hf & H)|[(Hf & Hsub & H)|[(Hf & _ & e0 & w1 & Hf2 & H & _)
       |(_ & _ & d & w1 & t1 & t2 & t3 & H & _)]]];
    rewrite H in Hrun; [| | |discriminate]; injection Hrun as <- <-.
  - split; [destruct e0; simpl; eauto|]. right. exists e0. auto.
  - split; [eauto|]. left. auto.
  - split; [destruct e0; simpl; eauto|]. right. exists e0. auto.
Qed.

Lemma subscribe_newsletter_raises_witness :
  subscribe_newsletter Sample.subscription Sample2.w_teapot
  = (Raise (HTTPException 418 "teapot"), pop_fault Sample2.w_teapot)
  /\ (exists e0,
        next_fault Sample2.w_teapot = Some e0
        /\ HTTPException 418 "teapot" = e0)
  /\ fst (subscribe_newsletter Sample.subscription Sample.w_down2)
     = Raise (HTTPException 500
                "Failed to subscribe to newsletter: connection closed").
Proof.
  assert (Hrun : subscribe_newsletter Sample.subscription Sample2.w_teapot
                 = (Raise (HTTPException 418 "teapot"),
                    pop_fault Sample2.w_teapot)) by reflexivity.
  split; [exact Hrun|]. split; [|reflexivity].
  destruct (subscribe_newsletter_raises _ _ _ _ Hrun)
    as [_ [[Hconflict _]|(e0 & [Hf|[Hf _]] & He)]].
  - discriminate Hconflict.
  - exists e0. split; [exact Hf|].
    injection Hf as <-. reflexivity.
  - discriminate Hf.
Defined.

(** X2. [subscribe_newsletter] writes to the newsletter collection only:
    the contacts and the paintings are as they were; when it returns,
    one document has been added at the end of the subscriptions and none
    of the others has changed; when it raises, nothing has been
    stored. *)
Theorem subscribe_newsletter_writes s w r w' :
  subscribe_newsletter s w = (r, w') ->
  contacts w' = contacts w
  /\ paintings w' = paintings w
  /\ match r with
     | Ok _ => exists d, newsletters w' = (newsletters w ++ [d])%list
     | Raise _ => newsletters w' = newsletters w
     end.
Proof.
  intros Hrun.
  destruct (OutcomeFacts.subscribe_cases s w)
    as [(e0 & _ & H)|[(_ & _ & H)|[(_ & _ & e0 & w1 & _ & H & Hn & Hc & Hp)
       |(_ & _ & d & w1 & t1 & t2 & t3 & H & Hn & Hc & Hp & _)]]];
    rewrite H in Hrun; injection Hrun as <- <-; auto.
  split; [exact Hc|]. split; [exact Hp|]. now exists d.
Qed.

Lemma subscribe_newsletter_writes_witness :
  exists r w',
    subscribe_newsletter Sample.subscription Sample.w0 = (r, w')
    /\ contacts w' = []
    /\ paintings w' = paintings Sample.w0
    /\ exists d, newsletters w' = [d].
Proof.
  eexists _, _. split; [reflexivity|].
  exact (subscribe_newsletter_writes Sample.subscription Sample.w0 _ _
           eq_refl).
Defined.

(** X3. After [subscribe_newsletter], the addresses that are taken are
    those that were taken before, and, when it returned, those that
    lower-case to the address of the request. *)
Theorem subscribed_after s w r w' :
  subscribe_newsletter s w = (r, w') ->
  forall email,
    subscribed email w'
    <-> subscribed email w
        \/ (is_Ok r
            /\ PyStr.lower email
               = PyStr.lower (NewsletterSubscription.email s)).
Proof.
  intros Hrun email.
  destruct (OutcomeFacts.subscribe_cases s w)
    as [(e0 & _ & H)|[(_ & _ & H)|[(_ & _ & e0 & w1 & _ & H & Hn & _)
       |(_ & _ & d & w1 & t1 & t2 & t3 & H & Hn & _ & _ & _ & Hk)]]];
    rewrite H in Hrun; injection Hrun as <- <-; unfold subscribed.
  - simpl. tauto.
  - simpl. tauto.
  - rewrite Hn. simpl. tauto.
  - rewrite Hn, Exists_app, Exists_cons, Exists_nil.
    rewrite (Hk "email") by discriminate.
    change (newsletter_document s t1 t2 t3 !! "email")
      with (Some (VStr (PyStr.lower (NewsletterSubscription.email s)))).
    simpl. split.
    + intros [Hold|[[= Heq]|[]]]; [now left | right; auto].
    + intros [Hold|[_ Heq]]; [now left | right; left; now rewrite Heq].
Qed.

Lemma subscribed_after_witness :
  exists r w',
    subscribe_newsletter Sample.subscription Sample.w0 = (r, w')
    /\ subscribed "ASHA@example.com" w'
    /\ ~ subscribed "ravi@example.com" w'.
Proof.
  eexists _, _. split; [reflexivity|].
  pose proof (subscribed_after Sample.subscription Sample.w0 _ _ eq_refl)
    as Hiff.
  split.
  - apply Hiff. right. split; [exact I | reflexivity].
  - intros Hsub. apply Hiff in Hsub as [Hold|[_ Heq]].
    + inversion Hold.
    + vm_compute in Heq. discriminate Heq.
Defined.

(** X4. Requests served one after the other never store the same
    address twice: if the [email] fields of the stored subscriptions are
    pairwise different, they still are after any series of
    [subscribe_newsletter], whatever the driver does. *)
Theorem newsletter_emails_stay_unique reqs w :
  NoDup (stored_emails w) ->
  NoDup (stored_emails (snd (serve_all subscribe_newsletter reqs w))).
Proof.
  revert w. induction reqs as [|s reqs IH]; intros w Hnd; [exact Hnd|].
  simpl. destruct (subscribe_newsletter s w) as [r w1] eqn:Hrun.
  specialize (IH w1).
  destruct (serve_all subscribe_newsletter reqs w1) as [rs w2].
  simpl in *. apply IH. clear IH.
  destruct (OutcomeFacts.subscribe_cases s w)
    as [(e0 & _ & H)|[(_ & _ & H)|[(_ & _ & e0 & w' & _ & H & Hn & _)
       |(_ & Hfresh & d & w' & t1 & t2 & t3 & H & Hn & _ & _ & _ & Hk)]]];
    rewrite H in Hrun; injection Hrun as _ <-; unfold stored_emails in *.
  - exact Hnd.
  - exact Hnd.
  - now rewrite Hn.
  - rewrite Hn, omap_app. simpl.
    rewrite (Hk "email") by discriminate.
    change (newsletter_document s t1 t2 t3 !! "email")
      with (Some (VStr (PyStr.lower (NewsletterSubscription.email s)))).
    simpl. apply NoDup_app. split; [exact Hnd|]. split.
    + intros v Hv Hin. apply list_elem_of_singleton in Hin as ->.
      apply list_elem_of_omap in Hv as (d0 & Hd0 & Hemail).
      apply Hfresh. apply Exists_exists. now exists d0.
    + apply NoDup_singleton.
Qed.

Lemma newsletter_emails_stay_unique_witness :
  NoDup (stored_emails Sample.w0)
  /\ NoDup (stored_emails
              (snd (serve_all subscribe_newsletter
                      [Sample.subscription;
                       NewsletterSubscription.make "ASHA@EXAMPLE.COM" None;
                       NewsletterSubscription.make "ravi@example.com" None]
                      Sample.w0)))
  /\ length (newsletters
               (snd (serve_all subscribe_newsletter
                       [Sample.subscription;
                        NewsletterSubscription.make "ASHA@EXAMPLE.COM" None;
                        NewsletterSubscription.make "ravi@example.com" None]
                       Sample.w0))) = 2%nat.
Proof.
  assert (Hnd : NoDup (stored_emails Sample.w0)) by constructor.
  split; [exact Hnd|].
  split; [apply (newsletter_emails_stay_unique _ _ Hnd) | reflexivity].
Defined.



(** ** The contact form: what is stored *)

Module ContactMoreFacts.

(** The numbers given to a series of accepted submissions. *)
Lemma serve_all_numbers cs w :
  Forall is_Ok (fst (serve_all submit_contact cs w)) ->
  contact_number <$> fst (serve_all submit_contact cs w)
  = (fun count => Some (contact_number_of count))
      <$> seqZ (Z.of_nat (length (contacts w))) (Z.of_nat (length cs)).
Proof.
  revert w. induction cs as [|c cs IH]; intros w Hall; [reflexivity|].
  simpl in Hall |- *.
  destruct (submit_contact c w) as [r w1] eqn:Hrun.
  specialize (IH w1).
  destruct (serve_all submit_contact cs w1) as [rs w2].
  simpl in *. inversion Hall as [|? ? Hr Hrs]; subst.
  destruct r as [resp|e]; [|contradiction].
  pose proof (ContactFacts.contact_number_returns _ _ _ _ Hrun) as Hnum.
  destruct (ContactFacts.submit_contact_returns _ _ _ _ Hrun)
    as (_ & d & _ & Hlen & _).
  specialize (IH Hrs). rewrite Hlen, length_app in IH. simpl in IH.
  rewrite seqZ_cons by lia. rewrite !fmap_cons. f_equal; [exact Hnum|].
  change (contact_number <$> rs
          = (fun count => Some (contact_number_of count))
              <$> seqZ (Z.succ (Z.of_nat (length (contacts w))))
                       (Z.pred (Z.of_nat (S (length cs))))).
  rewrite IH. f_equal. f_equal; lia.
Qed.

(** Different counts give different numbers. *)
Lemma contact_number_of_inj c1 c2 :
  0 <= c1 -> 0 <= c2 -> contact_number_of c1 = contact_number_of c2 -> c1 = c2.
Proof.
  intros H1 H2 Heq. apply (f_equal suffix_value) in Heq.
  rewrite !ContactFacts.suffix_value_contact_number_of in Heq by assumption.
  lia.
Qed.

(** A number of the form [CNT] and six digits comes from a count below
    999999. *)
Lemma is_contact_number_bound count :
  0 <= count -> is_contact_number (contact_number_of count) = true ->
  count < 999999.
Proof.
  intros Hc Hfmt. unfold contact_number_of in Hfmt. simpl in Hfmt.
  apply andb_prop in Hfmt as [Hlen Hdig]. apply Nat.eqb_eq in Hlen.
  pose proof (PyStrFacts.digits_value_bound _ 0 Hdig ltac:(lia)) as Hb.
  rewrite PyStrFacts.digits_value_zfill, Hlen in Hb by lia.
  simpl in Hb. lia.
Qed.

End ContactMoreFacts.

(** X6. Contacts submitted one after the other and all accepted get
    pairwise different contact numbers. *)
Theorem contact_numbers_distinct cs w :
  Forall is_Ok (fst (serve_all submit_contact cs w)) ->
  NoDup (contact_number <$> fst (serve_all submit_contact cs w))
  /\ Forall is_Some (contact_number <$> fst (serve_all submit_contact cs w)).
Proof.
  intros Hall. rewrite (ContactMoreFacts.serve_all_numbers cs w Hall). split.
  - apply NoDup_fmap_2_strong; [|apply NoDup_seqZ].
    intros c1 c2 H1 H2 Heq.
    apply elem_of_seqZ in H1, H2.
    apply ContactMoreFacts.contact_number_of_inj; [lia | lia | congruence].
  - apply Forall_fmap, Forall_true. intros c. now eexists.
Qed.

Lemma contact_numbers_distinct_witness :
  Forall is_Ok
    (fst (serve_all submit_contact
            [Sample.contact "Asha"; Sample.contact "Asha"] Sample.w0))
  /\ NoDup (contact_number <$>
              fst (serve_all submit_contact
                     [Sample.contact "Asha"; Sample.contact "Asha"]
                     Sample.w0)).
Proof.
  assert (Hall : Forall is_Ok
    (fst (serve_all submit_contact
            [Sample.contact "Asha"; Sample.contact "Asha"] Sample.w0))).
  { vm_compute. repeat constructor. }
  split; [exact Hall|].
  exact (proj1 (contact_numbers_distinct _ _ Hall)).
Defined.

(** X7. The contact number of an accepted submission is [CNT] followed
    by exactly six digits if and only if fewer than 999999 contacts were
    stored before: from the millionth contact on the number is
    longer. *)
Theorem contact_number_six_digits_iff contact w resp w' :
  submit_contact contact w = (Ok resp, w') ->
  exists number,
    contact_number (Ok resp) = Some number
    /\ (is_contact_number number = true
        <-> Z.of_nat (length (contacts w)) < 999999)
    /\ (999999 <= Z.of_nat (length (contacts w)) ->
        (10 <= String.length number)%nat).
Proof.
  intros Hrun.
  pose proof (ContactFacts.contact_number_returns _ _ _ _ Hrun) as Hnum.
  eexists. split; [exact Hnum|]. split; [split|].
  - intros Hfmt.
    apply ContactMoreFacts.is_contact_number_bound in Hfmt; lia.
  - intros Hlt. apply ContactFacts.is_contact_number_of. lia.
  - intros Hge.
    set (count := Z.of_nat (length (contacts w))).
    unfold contact_number_of. fold count.
    change (String.length ("CNT" ++ PyStr.zfill 6 (PyStr.str_int (count + 1))))
      with (3 + String.length (PyStr.zfill 6 (PyStr.str_int (count + 1))))%nat.
    destruct (le_lt_dec 7
                (String.length (PyStr.zfill 6 (PyStr.str_int (count + 1)))))
      as [Hlong|Hshort]; [lia | exfalso].
    rewrite PyStrFacts.str_int_nonneg in Hshort by lia.
    rewrite PyStrFacts.zfill_digits in Hshort
      by (apply PyStrFacts.digits_nonempty
          || apply PyStrFacts.all_digits_digits_aux).
    rewrite PyStrFacts.length_append in Hshort.
    pose proof (PyStrFacts.digits_value_bound (PyStr.digits (count + 1)) 0
                  (PyStrFacts.all_digits_digits_aux _ _) ltac:(lia)) as Hb.
    rewrite PyStrFacts.digits_value_digits in Hb by lia.
    assert (Hpow : 10 ^ Z.of_nat (String.length (PyStr.digits (count + 1)))
                   <= 10 ^ 6) by (apply Z.pow_le_mono_r; lia).
    lia.
Qed.

Lemma contact_number_six_digits_iff_witness :
  exists resp w' number,
    submit_contact (Sample.contact "Asha") Sample.w0 = (Ok resp, w')
    /\ contact_number (Ok resp) = Some number
    /\ is_contact_number number = true.
Proof.
  assert (Hex : exists resp w',
             submit_contact (Sample.contact "Asha") Sample.w0
             = (Ok resp, w')) by (eexists _, _; reflexivity).
  destruct Hex as (resp & w' & Hrun).
  destruct (contact_number_six_digits_iff _ _ _ _ Hrun)
    as (number & Hn & Hiff & _).
  exists resp, w', number. split; [exact Hrun|]. split; [exact Hn|].
  apply Hiff. reflexivity.
Defined.

(** X8. [submit_contact] writes to the contact collection only: the
    subscriptions and the paintings are as they were; when it returns,
    one document has been added at the end of the contacts and none of
    the others has changed; when it raises, nothing has been stored. *)
Theorem submit_contact_writes contact w r w' :
  submit_contact contact w = (r, w') ->
  newsletters w' = newsletters w
  /\ paintings w' = paintings w
  /\ match r with
     | Ok _ => exists d, contacts w' = (contacts w ++ [d])%list
     | Raise _ => contacts w' = contacts w
     end.
Proof.
  intros Hrun.
  destruct (OutcomeFacts.submit_contact_cases contact w)
    as [(e0 & _ & H)|[(_ & e0 & w1 & _ & H & Hn & Hc & Hp)
       |(_ & _ & d & w1 & t1 & t2 & t3 & H & Hc & Hn & Hp & _)]];
    rewrite H in Hrun; injection Hrun as <- <-; auto.
  split; [exact Hn|]. split; [exact Hp|]. now exists d.
Qed.

Lemma submit_contact_writes_witness :
  exists r w',
    submit_contact (Sample.contact "Asha") Sample.w_down2 = (r, w')
    /\ http_status r = 500
    /\ contacts w' = [].
Proof.
  eexists _, _. split; [reflexivity|]. split; [reflexivity|].
  exact (proj2 (proj2 (submit_contact_writes (Sample.contact "Asha")
                         Sample.w_down2 _ _ eq_refl))).
Defined.



(** X10. Validation counts white space, trimming removes it: a name, a
    message or a phone made of white space only is stored as the empty
    string (the phone as null only when it is missing or empty), so a
    name that validation accepts can be stored empty. *)
Theorem blank_fields_stored_empty contact w resp w' :
  submit_contact contact w = (Ok resp, w') ->
  exists d,
    contacts w' = (contacts w ++ [d])%list
    /\ (all_space (ContactSubmission.name contact) = true ->
        d !! "name" = Some (VStr ""))
    /\ (all_space (ContactSubmission.message contact) = true ->
        d !! "message" = Some (VStr ""))
    /\ (forall p,
         ContactSubmission.phone contact = Some p ->
         p <> "" -> all_space p = true ->
         d !! "phone" = Some (VStr ""))
    /\ (ContactSubmission.phone contact = None
        \/ ContactSubmission.phone contact = Some "" ->
        d !! "phone" = Some VNone).
Proof.
  intros Hrun.
  destruct (OutcomeFacts.submit_contact_cases contact w)
    as [(e0 & _ & H)|[(_ & e0 & w1 & _ & H & _)
       |(_ & _ & d & w1 & t1 & t2 & t3 & H & Hc & _ & _ & _ & Hk)]];
    rewrite H in Hrun; try discriminate.
  exists d. injection Hrun as _ <-. split; [exact Hc|].
  rewrite !Hk by discriminate.
  change (contact_document contact
            (contact_number_of (Z.of_nat (length (contacts w))))
            t1 t2 t3 !! "phone")
    with (Some (strip_if_truthy (ContactSubmission.phone contact))).
  change (contact_document contact
            (contact_number_of (Z.of_nat (length (contacts w))))
            t1 t2 t3 !! "name")
    with (Some (VStr (PyStr.strip (ContactSubmission.name contact)))).
  change (contact_document contact
            (contact_number_of (Z.of_nat (length (contacts w))))
            t1 t2 t3 !! "message")
    with (Some (VStr (PyStr.strip (ContactSubmission.message contact)))).
  unfold all_space. split; [|split; [|split]].
  - intros Hsp. now rewrite PyStrFacts.strip_all_space.
  - intros Hsp. now rewrite PyStrFacts.strip_all_space.
  - intros p -> Hne Hsp. destruct p as [|c p]; [congruence|].
    simpl. now rewrite PyStrFacts.strip_all_space.
  - intros [->| ->]; reflexivity.
Qed.

Lemma blank_fields_stored_empty_witness :
  ContactSubmission.name_valid
    (ContactSubmission.name Sample2.blank_contact) = true
  /\ ContactSubmission.message_valid
       (ContactSubmission.message Sample2.blank_contact) = true
  /\ exists resp w' d,
      submit_contact Sample2.blank_contact Sample.w0 = (Ok resp, w')
      /\ contacts w' = [d]
      /\ d !! "name" = Some (VStr "")
      /\ d !! "message" = Some (VStr "")
      /\ d !! "phone" = Some (VStr "").
Proof.
  split; [reflexivity|]. split; [reflexivity|].
  assert (Hex : exists resp w',
             submit_contact Sample2.blank_contact Sample.w0
             = (Ok resp, w')) by (eexists _, _; reflexivity).
  destruct Hex as (resp & w' & Hrun).
  destruct (blank_fields_stored_empty _ _ _ _ Hrun)
    as (d & Hc & Hname & Hmsg & Hphone & _).
  exists resp, w', d. split; [exact Hrun|]. split; [exact Hc|].
  split; [apply Hname; reflexivity|]. split; [apply Hmsg; reflexivity|].
  apply (Hphone "  "); [reflexivity | discriminate | reflexivity].
Defined.

(** X11. With the driver answering the count and the insert,
    [submit_contact] accepts whatever contact it is given; it checks
    neither the lengths nor whether the same contact is stored
    already. *)
Theorem submit_contact_succeeds contact w :
  next_fault w = None -> next_fault (pop_fault w) = None ->
  exists resp w',
    submit_contact contact w = (Ok resp, w')
    /\ ContactResponse.success resp = true
    /\ http_status (fst (submit_contact contact w)) = 200
    /\ length (contacts w') = S (length (contacts w)).
Proof.
  intros Hf1 Hf2.
  destruct (OutcomeFacts.submit_contact_cases contact w)
    as [(e0 & Hf & _)|[(_ & e0 & w1 & Hf & _)
       |(_ & _ & d & w1 & t1 & t2 & t3 & H & Hc & _)]]; try congruence.
  eexists _, w1. split; [exact H|]. split; [reflexivity|].
  split; [now rewrite H|]. rewrite Hc, length_app. simpl. lia.
Qed.

Lemma submit_contact_succeeds_witness :
  exists resp w',
    submit_contact (Sample.contact "") Sample.w0 = (Ok resp, w')
    /\ ContactSubmission.name_valid "" = false
    /\ length (contacts w') = 1%nat.
Proof.
  destruct (submit_contact_succeeds (Sample.contact "") Sample.w0
              eq_refl eq_refl) as (resp & w' & Hrun & _ & _ & Hlen).
  exists resp, w'. split; [exact Hrun|]. split; [reflexivity | exact Hlen].
Defined.

(** ** The paintings and the read-only routes *)

(** X12. [get_paintings] only ever raises a 500 whose detail is
    ["Failed to fetch paintings: "] followed by the text of what went
    wrong: a negative limit (Motor refuses the length), an exception of
    the driver, or a fetched document without [_id] (the [KeyError] of
    the conversion loop, whose text is the quoted key). *)
Theorem get_paintings_raises featured limit w e w' :
  get_paintings featured limit w = (Raise e, w') ->
  exists detail,
    e = HTTPException 500 ("Failed to fetch paintings: " ++ detail)
    /\ ((detail = "length must be non-negative"
         /\ exists n, limit = Some n /\ n < 0)
        \/ (exists e0, next_fault w = Some e0 /\ detail = str_exn e0)
        \/ (detail = "'_id'"
            /\ Exists (fun p : doc => p !! "_id" = None)
                      (fetched_paintings featured limit w))).
Proof.
  intros Hrun.
  destruct (OutcomeFacts.get_paintings_cases featured limit w)
    as [(Hneg & H)|[(_ & e0 & Hf & H)|[(_ & _ & Hmiss & H)
       |(_ & _ & _ & sent & H & _)]]];
    rewrite H in Hrun; try discriminate; injection Hrun as <- <-.
  - eexists. split; [reflexivity|]. left. split; [reflexivity|].
    destruct limit as [n|]; [|simpl in Hneg; lia].
    exists n. split; [reflexivity|].
    unfold limit_or_100 in Hneg. destruct (n =? 0); lia.
  - exists (str_exn e0). split; [reflexivity|]. right. left. now exists e0.
  - eexists. split; [reflexivity|]. right. right. auto.
Qed.

Lemma get_paintings_raises_witness :
  get_paintings None None Sample2.w_no_id
  = (Raise (HTTPException 500 "Failed to fetch paintings: '_id'"),
     pop_fault Sample2.w_no_id)
  /\ Exists (fun p : doc => p !! "_id" = None)
            (fetched_paintings None None Sample2.w_no_id).
Proof.
  assert (Hrun : get_paintings None None Sample2.w_no_id
                 = (Raise (HTTPException 500
                             "Failed to fetch paintings: '_id'"),
                    pop_fault Sample2.w_no_id)) by reflexivity.
  split; [exact Hrun|].
  destruct (get_paintings_raises _ _ _ _ _ Hrun)
    as (detail & Hd & [[-> _]|[(e0 & Hf & _)|[_ Hmiss]]]).
  - discriminate Hd.
  - discriminate Hf.
  - exact Hmiss.
Defined.



(** X14. The data of an answer of [get_paintings] are, in stored order,
    the matching paintings up to the cap: as many as there are, or as
    the cap allows; so when the matching paintings are no more than the
    cap, every stored painting that matches is sent. *)
Theorem paintings_exact featured limit w resp w' :
  get_paintings featured limit w = (Ok resp, w') ->
  let matching := filter (matches (featured_query featured)) (paintings w) in
  let cap := Z.to_nat (limit_or_100 limit) in
  Forall2 id_stringified (PaintingsResult.data resp) (take cap matching)
  /\ length (PaintingsResult.data resp) = Nat.min cap (length matching)
  /\ ((length matching <= cap)%nat ->
      forall p,
        p ∈ paintings w ->
        match featured with
        | Some b => p !! "featured" = Some (VBool b)
        | None => True
        end ->
        exists sent,
          sent ∈ PaintingsResult.data resp /\ id_stringified sent p).
Proof.
  intros Hrun matching cap.
  destruct (PaintingsFacts.get_paintings_returns _ _ _ _ _ Hrun)
    as (_ & _ & Hsent).
  fold matching cap in Hsent.
  split; [exact Hsent|]. split.
  - apply Forall2_length in Hsent. now rewrite length_take in Hsent.
  - intros Hfit p Hp Hfeat.
    rewrite take_ge in Hsent by exact Hfit.
    assert (Hm : p ∈ matching).
    { apply list_elem_of_filter. split; [|exact Hp].
      destruct featured as [b|].
      - now apply DriverFacts.matches_featured.
      - apply map_Forall_empty. }
    apply list_elem_of_lookup in Hm as [i Hi].
    destruct (Forall2_lookup_r _ _ _ _ _ Hsent Hi) as (sent & Hs & Hrel).
    exists sent. split; [|exact Hrel].
    apply list_elem_of_lookup. now exists i.
Qed.

Lemma paintings_exact_witness :
  exists resp w',
    get_paintings (Some true) (Some 5) Sample.w0 = (Ok resp, w')
    /\ length (PaintingsResult.data resp) = 2%nat
    /\ exists sent,
        sent ∈ PaintingsResult.data resp
        /\ id_stringified sent (Sample.painting "65e9a3" true).
Proof.
  assert (Hex : exists resp w',
             get_paintings (Some true) (Some 5) Sample.w0 = (Ok resp, w'))
    by (eexists _, _; reflexivity).
  destruct Hex as (resp & w' & Hrun).
  exists resp, w'. split; [exact Hrun|].
  destruct (paintings_exact _ _ _ _ _ Hrun) as (_ & Hlen & Hall).
  split; [rewrite Hlen; reflexivity|].
  apply Hall.
  - apply Nat.leb_le. reflexivity.
  - change (paintings Sample.w0)
      with [Sample.painting "65e9a1" true; Sample.painting "65e9a2" false;
            Sample.painting "65e9a3" true].
    do 2 right. left.
  - reflexivity.
Defined.

(** X15. Every document [get_paintings] sends has a text under [_id]:
    the hexadecimal digits of an [ObjectId], and more generally the
    [str] of what is stored; every other field is sent as it is stored,
    and a document whose [_id] is text already is sent unchanged. *)
Theorem paintings_ids_are_text featured limit w resp w' :
  get_paintings featured limit w = (Ok resp, w') ->
  forall i sent,
    PaintingsResult.data resp !! i = Some sent ->
    exists p v,
      fetched_paintings featured limit w !! i = Some p
      /\ p !! "_id" = Some v
      /\ sent !! "_id" = Some (VStr (str_value v))
      /\ (forall hex, v = VObjectId hex -> sent !! "_id" = Some (VStr hex))
      /\ (forall k, k <> "_id" -> sent !! k = p !! k)
      /\ (forall s, v = VStr s -> sent = p).
Proof.
  intros Hrun i sent Hi.
  destruct (PaintingsFacts.get_paintings_returns _ _ _ _ _ Hrun)
    as (_ & _ & Hsent).
  destruct (Forall2_lookup_l _ _ _ _ _ Hsent Hi) as (p & Hp & v & Hv & ->).
  exists p, v. split; [exact Hp|]. split; [exact Hv|].
  split; [apply lookup_insert_eq|]. split; [|split].
  - intros hex ->. apply lookup_insert_eq.
  - intros k Hk. now apply lookup_insert_ne.
  - intros s ->. now apply insert_id.
Qed.

Lemma paintings_ids_are_text_witness :
  exists resp w',
    get_paintings None None Sample2.w_text_id = (Ok resp, w')
    /\ forall sent,
        PaintingsResult.data resp !! 0%nat = Some sent ->
        sent = Sample2.text_id.
Proof.
  assert (Hex : exists resp w',
             get_paintings None None Sample2.w_text_id = (Ok resp, w'))
    by (eexists _, _; reflexivity).
  destruct Hex as (resp & w' & Hrun).
  exists resp, w'. split; [exact Hrun|]. intros sent Hi.
  destruct (paintings_ids_are_text _ _ _ _ _ Hrun 0%nat sent Hi)
    as (p & v & Hp & Hv & _ & _ & _ & Hsame).
  assert (Hp0 : fetched_paintings None None Sample2.w_text_id !! 0%nat
                = Some Sample2.text_id) by reflexivity.
  rewrite Hp0 in Hp. injection Hp as <-.
  assert (Hv0 : Sample2.text_id !! "_id" = Some (VStr "dusk-01"))
    by reflexivity.
  rewrite Hv0 in Hv. injection Hv as <-.
  now apply (Hsame "dusk-01").
Defined.

(** X16. [root], [health_check] and [get_paintings] store nothing: the
    three collections are after the request what they were before,
    whether the route returns or raises; and [root] answers the same
    payload without asking the driver anything. *)
Theorem read_only_routes w :
  root w = (Ok (dict [("message", VStr "AuraByShenoi API");
                      ("status", VStr "running")]), w)
  /\ same_database w (snd (health_check w))
  /\ forall featured limit,
      same_database w (snd (get_paintings featured limit w)).
Proof.
  split; [reflexivity|]. split.
  - unfold health_check, try_except, bind, ping, driver_io, utcnow, ret.
    destruct (next_fault w); repeat split.
  - intros featured limit.
    destruct (OutcomeFacts.get_paintings_cases featured limit w)
      as [(_ & H)|[(_ & e0 & _ & H)|[(_ & _ & _ & H)
         |(_ & _ & _ & sent & H & _)]]];
      rewrite H; repeat split.
Qed.

Lemma read_only_routes_witness :
  same_database Sample.w_down (snd (health_check Sample.w_down))
  /\ paintings (snd (get_paintings (Some true) (Some 1) Sample.w0))
     = paintings Sample.w0.
Proof.
  split.
  - exact (proj1 (proj2 (read_only_routes Sample.w_down))).
  - exact (proj2 (proj2 (proj2 (proj2 (read_only_routes Sample.w0))
                          (Some true) (Some 1)))).
Defined.
